(** * esbuild-css-modules-plugin: the load pipeline, the compiler adapter
      and the post-build injection step of [lib/plugin.js]

    The development embeds [lib/plugin.js] shallowly.

    - JavaScript strings are [string]; a character stands for one code
      unit below 256, and [Array.prototype.sort] without a comparator is
      the lexicographic order on code units ([String.le]).
    - A plain JavaScript object is the list of its own enumerable
      properties in enumeration order ([JsObject]).
    - Asynchronous functions are computations in a state-and-exception
      monad [M] over a [World]: the files on disk, the build cache of the
      build context and a ghost trace of the calls that the properties
      below count.  [await] is sequencing, a rejected promise is [Throw].
    - Everything [plugin.js] imports from outside the repository (node's
      [path], [crypto], the bundler, the CSS transform, lodash) is taken
      as an operation of an interface ([NodePath], [Externals]); the
      helpers of [lib/utils.js] and [lib/cache.js], which are not part of
      the available sources, are modelled from the specification and are
      marked as such.
    - Calls of the logger only print diagnostics and are left out.
    - The older implementation of the plugin, which has neither the cache
      nor the injection step, is embedded on its own in module [Legacy]. *)

From Stdlib Require Import String Ascii List ZArith Lia Bool.
From stdpp Require Import base option strings list gmap sorting.

Local Open Scope string_scope.
Local Open Scope list_scope.

(** ** JavaScript strings *)

Module Js.

Definition code (c : ascii) : N := N_of_ascii c.

Definition is_alnum (c : ascii) : bool :=
  let n := code c in
  ((48 <=? n) && (n <=? 57) || (65 <=? n) && (n <=? 90) ||
   (97 <=? n) && (n <=? 122))%N.

(** White space and line terminators among the code units below 256,
    as removed by [String.prototype.trim]. *)
Definition is_white (c : ascii) : bool :=
  let n := code c in
  ((9 <=? n) && (n <=? 13) || (n =? 32) || (n =? 160))%N.

(** Line terminators, the characters [.] does not match in a regular
    expression. *)
Definition is_line_terminator (c : ascii) : bool :=
  let n := code c in ((n =? 10) || (n =? 13))%N.

Fixpoint map_chars (f : ascii → ascii) (s : string) : string :=
  match s with
  | EmptyString => EmptyString
  | String c s' => String (f c) (map_chars f s')
  end.

Fixpoint filter_chars (p : ascii → bool) (s : string) : string :=
  match s with
  | EmptyString => EmptyString
  | String c s' =>
      if p c then String c (filter_chars p s') else filter_chars p s'
  end.

Fixpoint existsb_chars (p : ascii → bool) (s : string) : bool :=
  match s with
  | EmptyString => false
  | String c s' => p c || existsb_chars p s'
  end.

(** [s.replace(/[^a-zA-Z0-9]/g, '-')] *)
Definition dash_non_alnum (s : string) : string :=
  map_chars (λ c, if is_alnum c then c else "-"%char) s.

(** [s.replace(/[^a-zA-Z0-9]/g, '')] *)
Definition strip_non_alnum (s : string) : string := filter_chars is_alnum s.

(** [s.includes('-')] *)
Definition includes_dash (s : string) : bool :=
  existsb_chars (λ c, bool_decide (c = "-"%char)) s.

Fixpoint drop (n : nat) (s : string) : string :=
  match n, s with
  | O, _ => s
  | S n', String _ s' => drop n' s'
  | S _, EmptyString => EmptyString
  end.

(** [s.replace(pat, rep)] with a string pattern: the first occurrence. *)
Fixpoint replace_first (pat rep s : string) : string :=
  if String.prefix pat s then rep +:+ drop (String.length pat) s
  else match s with
       | EmptyString => EmptyString
       | String c s' => String c (replace_first pat rep s')
       end.

(** [s.split(a).join(b)] and [s.replaceAll(a, b)] for one-character
    [a] and [b]. *)
Definition replace_char (a b : ascii) (s : string) : string :=
  map_chars (λ c, if bool_decide (c = a) then b else c) s.

Fixpoint trim_start (s : string) : string :=
  match s with
  | EmptyString => EmptyString
  | String c s' => if is_white c then trim_start s' else s
  end.

Definition trim (s : string) : string :=
  String.rev (trim_start (String.rev (trim_start s))).

(** [s.replace(/\?.+$/, '')]: cut at the leftmost [?] that is followed,
    up to the end of the string, by at least one character and by no
    line terminator. *)
Fixpoint strip_query (s : string) : string :=
  match s with
  | EmptyString => EmptyString
  | String c s' =>
      if bool_decide (c = "?"%char) && negb (bool_decide (s' = "")) &&
         negb (existsb_chars is_line_terminator s')
      then EmptyString
      else String c (strip_query s')
  end.

(** [s.slice(from, to)] for integer arguments. *)
Definition slice (s : string) (from to : Z) : string :=
  let len := Z.of_nat (String.length s) in
  let clamp i := if (i <? 0)%Z then Z.max (len + i) 0 else Z.min i len in
  let a := clamp from in
  let b := clamp to in
  String.substring (Z.to_nat a) (Z.to_nat (Z.max (b - a) 0)) s.

(** [xs.join(sep)] *)
Fixpoint join (sep : string) (xs : list string) : string :=
  match xs with
  | [] => ""
  | [x] => x
  | x :: rest => x +:+ sep +:+ join sep rest
  end.

(** [s] occurs in [t]. *)
Definition occurs_in (s t : string) : Prop :=
  ∃ pre post, t = pre +:+ s +:+ post.

End Js.

(** ** Plain objects as ordered property lists *)

Section js_object.
Context {V : Type}.

Definition JsObject := list (string * V).

(** [Object.keys(o)] and [Object.entries(o)] *)
Definition obj_keys (o : JsObject) : list string := o.*1.
Definition obj_entries (o : JsObject) : list (string * V) := o.

(** [o[k]] *)
Fixpoint obj_get (o : JsObject) (k : string) : option V :=
  match o with
  | [] => None
  | (k', v) :: o' => if decide (k' = k) then Some v else obj_get o' k
  end.

End js_object.
Arguments JsObject : clear implicits.

(** Property names that are canonical array indices (the decimal form of
    an integer below [2^32 - 1]) are enumerated first, in numeric order;
    all other string keys follow in insertion order. *)
Fixpoint digits_value (acc : N) (s : string) : option N :=
  match s with
  | EmptyString => Some acc
  | String c s' =>
      let n := Js.code c in
      if ((48 <=? n) && (n <=? 57))%N
      then digits_value (acc * 10 + (n - 48))%N s'
      else None
  end.

Definition array_index (s : string) : option N :=
  match s with
  | EmptyString => None
  | String c s' =>
      if bool_decide (c = "0"%char) && negb (bool_decide (s' = ""))
      then None
      else match digits_value 0 s with
           | Some n => if (n <? 4294967295)%N then Some n else None
           | None => None
           end
  end.

Section js_object_set.
Context {V : Type}.

Fixpoint obj_update (k : string) (v : V) (o : JsObject V) : JsObject V :=
  match o with
  | [] => []
  | (k', v') :: o' =>
      if decide (k' = k) then (k, v) :: o' else (k', v') :: obj_update k v o'
  end.

Fixpoint obj_insert_index (n : N) (k : string) (v : V) (o : JsObject V)
  : JsObject V :=
  match o with
  | [] => [(k, v)]
  | (k', v') :: o' =>
      match array_index k' with
      | Some n' =>
          if (n' <? n)%N then (k', v') :: obj_insert_index n k v o'
          else (k, v) :: o
      | None => (k, v) :: o
      end
  end.

(** [o[k] = v] on an object created by [{}], for a primitive value [v]:
    an existing property keeps its place, a new one is enumerated as
    described above, and the key [__proto__] reaches the accessor of
    [Object.prototype], which ignores primitive values, so that no own
    property is created. *)
Definition obj_set (k : string) (v : V) (o : JsObject V) : JsObject V :=
  if decide (k = "__proto__") then o
  else match obj_get o k with
       | Some _ => obj_update k v o
       | None =>
           match array_index k with
           | Some n => obj_insert_index n k v o
           | None => o ++ [(k, v)]
           end
       end.

End js_object_set.

(** [keys.sort()]: the default comparison orders strings by their code
    units; the order is total, so the sorted array does not depend on
    the sorting algorithm of the engine. *)
Definition js_sort (keys : list string) : list string :=
  merge_sort String.le keys.

(** ** Exceptions, the world and the monad of asynchronous functions *)

Inductive JsError :=
| FsError (syscall path : string)       (* a rejected [fs/promises] call *)
| TypeError (message : string)
| Error (message : string)              (* [throw new Error(message)] *)
| ExternalError (origin message : string).
                                        (* raised inside an external library *)

Inductive Outcome (A : Type) :=
| Ok (a : A)
| Throw (e : JsError).
Arguments Ok {A} a.
Arguments Throw {A} e.

Definition is_ok {A} (r : Outcome A) : bool :=
  match r with Ok _ => true | Throw _ => false end.

(** *** Data of the compiler adapter *)

(** One entry of the export table of the CSS transform. *)
Record CssExport := {
  name : string;
  composes : list string;
  isReferenced : bool
}.

Record TransformResult := {
  tr_code : string;
  tr_exports : option (JsObject CssExport);
  tr_map : option string
}.

(** [options.v2CssModulesOption]: what the user may override in the
    [cssModules] configuration of the transform. *)
Record CssModulesOption := {
  opt_pattern : option string;
  opt_dashedIdents : option bool
}.

Record CssModulesConfig := {
  pattern : string;
  dashedIdents : option bool
}.

Record BundleConfig := {
  bc_filename : string;
  bc_code : string;
  bc_minify : bool;
  bc_sourceMap : bool;
  bc_cssModules : CssModulesConfig;
  bc_analyzeDependencies : bool
}.

(** [options.inject]: [false | true | container selector], or absent. *)
Inductive InjectOption :=
| InjectUnset
| InjectBool (b : bool)
| InjectSelector (selector : string).

Definition inject_truthy (i : InjectOption) : bool :=
  match i with
  | InjectUnset => false
  | InjectBool b => b
  | InjectSelector s => negb (bool_decide (s = ""))
  end.

(** A [watch] setting: a boolean or a configuration object. *)
Inductive WatchOption :=
| WatchBool (b : bool)
| WatchConfig.

Definition watch_truthy (w : WatchOption) : bool :=
  match w with WatchBool b => b | WatchConfig => true end.

Record Options := {
  inject : InjectOption;
  generateTsFile : bool;
  v2CssModulesOption : option CssModulesOption;
  watch : option WatchOption;
  root : option string
}.

(** What the loader hands to the bundler ([OnLoadResult]) and the data
    it carries to the next stage. *)
Record PluginData := {
  relativePathToBuildRoot : option string;
  pd_css : option string;
  pd_exports : option (JsObject CssExport);
  pd_digest : option string
}.

Record OnLoadResult := {
  lr_pluginName : string;
  lr_resolveDir : string;
  lr_pluginData : PluginData;
  lr_contents : string;
  lr_loader : string
}.

(** *** The world *)

(** Modelled from the spec: [lib/cache.js] is not among the sources.  A
    cache entry is the stored load result together with the digest of the
    content the source file had when the result was computed. *)
Record CacheEntry := {
  entry_result : OnLoadResult;
  entry_digest : string
}.

(** Ghost events: the calls that the properties below count. *)
Inductive Event :=
| EvCompile (fullPath : string)          (* [buildCssModulesJs] entered *)
| EvCacheGet (absPath : string)
| EvCacheSet (absPath : string)
| EvNestedBuild (entryName entryPath tmpJsCode : string).

Record World := {
  files : gmap string string;            (* the file system *)
  cache : gmap string CacheEntry;        (* [build.context.cache] *)
  trace : list Event
}.

Definition with_files (f : gmap string string) (w : World) : World :=
  {| files := f; cache := cache w; trace := trace w |}.
Definition with_cache (c : gmap string CacheEntry) (w : World) : World :=
  {| files := files w; cache := c; trace := trace w |}.
Definition emit (e : Event) (w : World) : World :=
  {| files := files w; cache := cache w; trace := trace w ++ [e] |}.

Definition M (A : Type) : Type := World → Outcome A * World.

Definition ret {A} (a : A) : M A := λ w, (Ok a, w).
Definition throw {A} (e : JsError) : M A := λ w, (Throw e, w).
Definition bind {A B} (m : M A) (k : A → M B) : M B :=
  λ w, match m w with
       | (Ok a, w') => k a w'
       | (Throw e, w') => (Throw e, w')
       end.
Definition lift {A} (r : Outcome A) : M A := λ w, (r, w).
Definition tell (e : Event) : M unit := λ w, (Ok tt, emit e w).

Notation "'let*' x ':=' m 'in' k" := (bind m (λ x, k))
  (at level 10, x name, m at level 100, k at level 200).

(** [fs/promises] *)
Definition readFile (p : string) : M string :=
  λ w, match files w !! p with
       | Some c => (Ok c, w)
       | None => (Throw (FsError "open" p), w)
       end.
Definition writeFile (p content : string) : M unit :=
  λ w, (Ok tt, with_files (<[p := content]> (files w)) w).
Definition appendFile (p content : string) : M unit :=
  λ w, (Ok tt, with_files (<[p := default "" (files w !! p) +:+ content]>
                             (files w)) w).
Definition unlink (p : string) : M unit :=
  λ w, match files w !! p with
       | Some _ => (Ok tt, with_files (delete p (files w)) w)
       | None => (Throw (FsError "unlink" p), w)
       end.

(** ** Interfaces of what [plugin.js] imports *)

(** node's [path] module. *)
Class NodePath := {
  path_sep : ascii;
  path_isAbsolute : string → bool;
  path_resolve : string → string → string;
  path_relative : string → string → string;
  path_basename : string → string;
  path_basename_ext : string → string → string;  (* [basename(p, ext)] *)
  path_extname : string → string;
  path_dirname : string → string
}.

(** Options of the bundler's single-file transform and of the nested
    build, as [onEnd] fills them in from [initialOptions]. *)
Inductive SourcemapOption :=
| SourcemapBool (b : bool)
| SourcemapMode (mode : string).   (* 'inline', 'external', 'linked', 'both' *)

Record HostTransformOptions := {
  to_charset : string;
  to_loader : string;
  to_sourcemap : bool;
  to_minify : bool;
  to_logLevel : option string;
  to_format : option string;
  to_target : option string
}.

Record NestedBuildOptions := {
  nb_charset : string;
  nb_absWorkingDir : string;
  nb_write : bool;
  nb_allowOverwrite : bool;
  nb_treeShaking : bool;
  nb_logLevel : option string;
  nb_format : option string;
  nb_target : option string;
  nb_minify : option bool;
  nb_sourceRoot : option string;
  nb_publicPath : option string;
  nb_sourcemap : option SourcemapOption;
  nb_sourcesContent : option bool;
  nb_entryPoints : list (string * string);   (* [{ [entryName]: path }] *)
  nb_outdir : string;
  nb_bundle : bool;
  nb_external : option (list string)
}.

(** The libraries: lightningcss, lodash, node's [crypto] and [Buffer],
    prettier when it is installed, and the bundler itself. *)
Class Externals := {
  css_transform : BundleConfig → Outcome TransformResult;
  camelCase : string → string;
  kebabCase : string → string;
  sha256_hex : string → string;
  base64 : string → string;
  prettier_format : option (string → Outcome string);
  host_resolve : string → option string → Outcome string;
  esbuild_transform : string → HostTransformOptions → Outcome string;
  esbuild_build : NestedBuildOptions → gmap string string →
                  Outcome unit * gmap string string
}.

(** Modelled from the spec: the reserved identifiers and the injector of
    [lib/utils.js], which is not among the sources.  [jsKeywords] are the
    reserved identifiers of the target module system; the injector code
    is a text computed from the container, the concatenated CSS, the
    build identifier and the options. *)
Class Utils := {
  jsKeywords : list string;
  buildInjectCode : string → string → string → Options → string
}.

(** Modelled from the spec: the name of the plugin, a constant of
    [lib/utils.js]. *)
Definition pluginName : string := "esbuild-css-modules-plugin".

(** Modelled from the spec: the private namespace of the virtual modules,
    a constant of [lib/utils.js]. *)
Definition pluginNamespace : string := "esbuild-css-modules-plugin-namespace".

(** Modelled from the spec: the suffix of the building virtual module, a
    constant of [lib/utils.js]; the text is the one that the comments of
    [plugin.js] show (lines 31 and 461). *)
Definition buildingCssSuffix : string := "?esbuild-css-modules-plugin-building".

(** Modelled from the spec: the suffix of the built virtual module, a
    constant of [lib/utils.js], distinct from the building suffix (the
    text of line 86). *)
Definition builtCssSuffix : string := "?esbuild-css-modules-plugin-built".

(** Modelled from the spec: [validateNamedExport] of [lib/utils.js]
    accepts a name iff it is not a reserved identifier. *)
Definition validateNamedExport `{Utils} (name : string) : bool :=
  bool_decide (name ∉ jsKeywords).

(** [build.context] without the logger and the cache (the cache is part
    of the [World]). *)
Record BuildContext := {
  buildId : string;
  buildRoot : string;
  packageRoot : option string;
  packageVersion : option string;
  relative : string → string
}.

(** ** The compiler adapter: [buildCssModulesJs] *)

Definition nl : string := String (ascii_of_nat 10) EmptyString.
Definition dq : string := String (ascii_of_nat 34) EmptyString.

Record CompiledCss := {
  js : string;
  css : string;
  originCss : string;
  exports : JsObject CssExport;
  resolveDir : string
}.

(** Lines 58-66: the class-name map, filled in the sorted order of the
    original identifiers. *)
Definition build_cssModulesJSON (exports : JsObject CssExport)
  : JsObject string :=
  foldl (λ cssModulesJSON originClass,
           match obj_get exports originClass with
           | Some e => obj_set originClass (name e) cssModulesJSON
           | None => cssModulesJSON   (* not reached: a key of [exports] *)
           end)
        [] (js_sort (obj_keys exports)).

Section adapter.
Context `{NodePath, Externals, Utils}.

(** Lines 68-72. *)
Definition defaultExportEntries (cssModulesJSON : JsObject string)
  : list (string * string) :=
  map (λ e, (kebabCase e.1, e.2)) (obj_entries cssModulesJSON).

Definition renderEntry (e : string * string) : string :=
  (if Js.includes_dash e.1 then "'" +:+ e.1 +:+ "'" else e.1)
    +:+ ": '" +:+ e.2 +:+ "'".

Definition classNamesMapString (cssModulesJSON : JsObject string) : string :=
  "{" +:+ nl +:+
  Js.join "," (map renderEntry (defaultExportEntries cssModulesJSON))
  +:+ nl +:+ "}".

(** Lines 89-100. *)
Definition exportStatement (options : Options) (buildId : string)
    (cssModulesJSON : JsObject string) : string :=
  if inject_truthy (inject options) then
    Js.join nl
      [ "";
        "export default new Proxy(" +:+ classNamesMapString cssModulesJSON
           +:+ ", {";
        "  get: function(source, key) {";
        "    setTimeout(() => {";
        "      window.__inject_" +:+ buildId +:+ "__ && window.__inject_"
           +:+ buildId +:+ "__();";
        "    }, 0);";
        "    return source[key];";
        "  }";
        "});";
        "  " ]
  else "export default " +:+ classNamesMapString cssModulesJSON +:+ ";".

Definition reservedMessage (camelCaseClassName fullPath : string) : string :=
  "the class name " +:+ dq +:+ camelCaseClassName +:+ dq +:+ " in file "
  +:+ fullPath +:+
  " is a reserved keyword in javascript, please change it to someother word to avoid potential errors".

Definition namedExportLine (ccn className : string) : string :=
  "export const " +:+ camelCase ccn +:+ " = " +:+ dq +:+ className +:+ dq.

(** Lines 103-114: the callback of [map], which throws at the first
    entry whose camelCase name is not a valid named export.  The result
    lists each [line]; the statement is [line;] and the declaration
    pushed to [namedExportsTs] is [line as const;]. *)
Fixpoint namedExportLines (fullPath : string)
    (entries : list (string * string)) : Outcome (list string) :=
  match entries with
  | [] => Ok []
  | (ccn, className) :: rest =>
      if validateNamedExport (camelCase ccn) then
        match namedExportLines fullPath rest with
        | Ok lines => Ok (namedExportLine ccn className :: lines)
        | Throw e => Throw e
        end
      else Throw (Error (reservedMessage (camelCase ccn) fullPath))
  end.

Definition cssImportPath (cssFileName : string) : string :=
  "./" +:+
  Js.replace_first buildingCssSuffix ""
    (Js.trim (Js.replace_char path_sep "/"%char cssFileName))
  +:+ builtCssSuffix.

Definition bundleConfig (fullPath : string) (options : Options)
    (ctx : BuildContext) (originCss : string) : BundleConfig :=
  let classPrefix :=
    Js.dash_non_alnum (path_basename_ext fullPath (path_extname fullPath))
    +:+ "__" in
  let versionString :=
    from_option Js.strip_non_alnum "" (packageVersion ctx) in
  let cssModulesOption :=
    default {| opt_pattern := None; opt_dashedIdents := None |}
            (v2CssModulesOption options) in
  {| bc_filename := relative ctx fullPath;
     bc_code := originCss;
     bc_minify := false;
     bc_sourceMap := true;
     bc_cssModules :=
       {| pattern := default (classPrefix +:+ "[local]_[hash]" +:+ versionString)
                             (opt_pattern cssModulesOption);
          dashedIdents := opt_dashedIdents cssModulesOption |};
     bc_analyzeDependencies := false |}.

(** Lines 56-137: what [buildCssModulesJs] does with the result [t] of
    the transform. *)
Definition emitBindings (fullPath : string) (options : Options)
    (ctx : BuildContext) (originCss : string) (t : TransformResult)
  : M CompiledCss :=
  let cssFileName := path_basename fullPath in
  let resolveDir := path_dirname fullPath in
  let genTs := generateTsFile options in
  let exports := default [] (tr_exports t) in
  let cssModulesContent := tr_code t in
  let cssModulesJSON := build_cssModulesJSON exports in
  let cssWithSourceMap :=
    match tr_map t with
    | Some map =>
        cssModulesContent +:+ nl +:+
        "/*# sourceMappingURL=data:application/json;base64," +:+ base64 map
        +:+ " */"
    | None => cssModulesContent
    end in
  let importStatement :=
    "import " +:+ dq +:+ cssImportPath cssFileName +:+ dq +:+ ";" in
  let exportStatement := exportStatement options (buildId ctx) cssModulesJSON in
  let* lines := lift (namedExportLines fullPath (obj_entries cssModulesJSON)) in
  let namedExportStatements := Js.join nl (map (λ l, l +:+ ";") lines) in
  let namedExportsTs :=
    if genTs then map (λ l, l +:+ " as const;") lines else [] in
  let js :=
    importStatement +:+ nl +:+ exportStatement +:+ ";" +:+ nl +:+
    namedExportStatements in
  let* _ :=
    if genTs then
      let ts :=
        Js.replace_char (ascii_of_nat 34) "'"%char
          ("export default " +:+ classNamesMapString cssModulesJSON +:+
           " as const;" +:+ nl +:+ Js.join nl namedExportsTs +:+ nl) in
      let tsPath := Js.strip_query fullPath +:+ ".ts" in
      let* ts :=
        match prettier_format with
        | Some format => lift (format ts)
        | None => ret ts
        end in
      writeFile tsPath ts
    else ret tt in
  ret {| js := js;
         css := cssWithSourceMap;
         originCss := originCss;
         exports := exports;
         resolveDir := resolveDir |}.

(** Lines 30-138. *)
Definition buildCssModulesJs (fullPath : string) (options : Options)
    (ctx : BuildContext) : M CompiledCss :=
  let* _ := tell (EvCompile fullPath) in
  let* originCss := readFile fullPath in
  let* t := lift (css_transform (bundleConfig fullPath options ctx originCss)) in
  emitBindings fullPath options ctx originCss t.

End adapter.

(** ** The build, its options and the build cache *)

(** One element of [entryPoints]: a path, or [{ in, out }]. *)
Inductive EntryPoint :=
| EntryPath (p : string)
| EntryInOut (in_ out_ : string).

(** [typeof p === "string" ? p : p.in] *)
Definition entry_in (p : EntryPoint) : string :=
  match p with EntryPath s => s | EntryInOut i _ => i end.

Inductive EntryPoints :=
| EntryArray (l : list EntryPoint)
| EntryObject (o : JsObject EntryPoint).

(** [build.initialOptions], the fields the plugin reads or writes. *)
Record InitialOptions := {
  io_metafile : option bool;
  io_watch : option WatchOption;
  io_charset : option string;
  io_outdir : option string;
  io_sourceRoot : option string;
  io_sourcemap : option SourcemapOption;
  io_sourcesContent : option bool;
  io_entryPoints : option EntryPoints;
  io_minify : option bool;
  io_logLevel : option string;
  io_format : option string;
  io_target : option string;
  io_external : option (list string);
  io_publicPath : option string;
  io_absWorkingDir : option string;
  io_bundle : option bool
}.

Definition set_metafile (b : bool) (io : InitialOptions) : InitialOptions :=
  {| io_metafile := Some b;
     io_watch := io_watch io;
     io_charset := io_charset io;
     io_outdir := io_outdir io;
     io_sourceRoot := io_sourceRoot io;
     io_sourcemap := io_sourcemap io;
     io_sourcesContent := io_sourcesContent io;
     io_entryPoints := io_entryPoints io;
     io_minify := io_minify io;
     io_logLevel := io_logLevel io;
     io_format := io_format io;
     io_target := io_target io;
     io_external := io_external io;
     io_publicPath := io_publicPath io;
     io_absWorkingDir := io_absWorkingDir io;
     io_bundle := io_bundle io |}.

(** Modelled from the spec: the helpers of [lib/utils.js] that derive the
    build context.  They read the build and do not change it: the build
    identifier is stable within a build and may need the file system (it
    is awaited and can fail), the build root is resolved from the
    options, the package version is a string when it is known, and the
    path relativization maps a path to its form relative to the build
    root.  The two filters recognise the source stylesheets and the
    built virtual modules. *)
Class ContextUtils := {
  getBuildId : InitialOptions → gmap string string → Outcome string;
  getRootDir : InitialOptions → string;
  getPackageVersion : InitialOptions → option string;
  getRelativePath : string → string → string;
  getModulesCssRegExp : Options → string → bool;
  getBuiltModulesCssRegExp : Options → string → bool
}.

(** Modelled from the spec: the content digest of [lib/cache.js], a hash
    of a file's content used to detect change. *)
Class ContentDigest := content_digest : string → string.

Section cache.
Context `{ContentDigest}.

(** Modelled from the spec: [cache.get(absPath)] of [lib/cache.js].  An
    entry is valid only while the content digest of the source file is
    unchanged; a lookup reads the file and answers with the stored load
    result when the digests agree, and with nothing otherwise.  The
    lookup does not change the cache. *)
Definition cache_get (absPath : string) : M (option OnLoadResult) :=
  let* _ := tell (EvCacheGet absPath) in
  λ w, match cache w !! absPath with
       | None => (Ok None, w)
       | Some e =>
           match files w !! absPath with
           | Some content =>
               if decide (content_digest content = entry_digest e)
               then (Ok (Some (entry_result e)), w)
               else (Ok None, w)
           | None => (Throw (FsError "open" absPath), w)
           end
       end.

(** Modelled from the spec: [cache.set(absPath, result, originContent)]
    of [lib/cache.js] stores the result under the absolute path,
    together with the digest of the source's content. *)
Definition cache_set (absPath : string) (result : OnLoadResult)
    (originContent : string) : M unit :=
  let* _ := tell (EvCacheSet absPath) in
  λ w, (Ok tt,
        with_cache (<[absPath := {| entry_result := result;
                                    entry_digest := content_digest originContent |}]>
                      (cache w)) w).

End cache.

(** ** Resolve and load handlers *)

Definition empty_pluginData : PluginData :=
  {| relativePathToBuildRoot := None; pd_css := None;
     pd_exports := None; pd_digest := None |}.

Record OnResolveArgs := {
  ra_path : EntryPoint;
  ra_resolveDir : option string;
  ra_kind : string;
  ra_pluginData : option PluginData
}.

Record OnResolveResult := {
  rr_namespace : string;
  rr_suffix : option string;
  rr_path : string;
  rr_external : bool;
  rr_pluginData : PluginData;
  rr_sideEffects : bool;
  rr_pluginName : string;
  rr_watchFiles : list string
}.

Record OnLoadArgs := {
  la_path : string;
  la_suffix : option string;
  la_pluginData : option PluginData
}.

Section handlers.
Context `{NodePath, Externals, Utils, ContentDigest}.

(** Lines 175-202. *)
Definition onResolveModulesCss (args : OnResolveArgs) (ctx : BuildContext)
  : M OnResolveResult :=
  let pluginData := default empty_pluginData (ra_pluginData args) in
  let* absPath := lift (host_resolve (entry_in (ra_path args))
                                     (ra_resolveDir args)) in
  let rpath := relative ctx absPath in
  ret {| rr_namespace := pluginNamespace;
         rr_suffix := Some buildingCssSuffix;
         rr_path := rpath;
         rr_external := false;
         rr_pluginData :=
           {| relativePathToBuildRoot := Some rpath;
              pd_css := pd_css pluginData;
              pd_exports := pd_exports pluginData;
              pd_digest := pd_digest pluginData |};
         rr_sideEffects := true;
         rr_pluginName := pluginName;
         rr_watchFiles := [absPath] |}.

(** Line 221: [build.initialOptions.watch ?? options.watch ?? false],
    as the condition of [&&] and [if]. *)
Definition useCache (io : InitialOptions) (options : Options) : bool :=
  match io_watch io with
  | Some w => watch_truthy w
  | None =>
      match watch options with
      | Some w => watch_truthy w
      | None => false
      end
  end.

(** Lines 230-231.  [createHash('sha256').update(rpath)] throws when
    [rpath] is undefined. *)
Definition digest_of_hex (hex : string) : string :=
  let len := Z.of_nat (String.length hex) in
  Js.slice hex (len - 255) len.

Definition path_digest (rpath : option string) : M string :=
  match rpath with
  | Some r => ret (digest_of_hex (sha256_hex r))
  | None => throw (TypeError "The data argument must be of type string")
  end.

Definition absPath_of (ctx : BuildContext) (maybeFullPath : string) : string :=
  if path_isAbsolute maybeFullPath then maybeFullPath
  else path_resolve (buildRoot ctx) maybeFullPath.

(** Lines 230-258: what [onLoadModulesCss] does when it has no cached
    result to return. *)
Definition compileAndStore (io : InitialOptions) (ctx : BuildContext)
    (options : Options) (args : OnLoadArgs) : M OnLoadResult :=
  let pluginData := default empty_pluginData (la_pluginData args) in
  let absPath := absPath_of ctx (la_path args) in
  let rpath := relativePathToBuildRoot pluginData in
  let* digest := path_digest rpath in
  let* c := buildCssModulesJs absPath options ctx in
  let result :=
    {| lr_pluginName := pluginName;
       lr_resolveDir := resolveDir c;
       lr_pluginData :=
         {| relativePathToBuildRoot := relativePathToBuildRoot pluginData;
            pd_css := Some (css c);
            pd_exports := Some (exports c);
            pd_digest := Some digest |};
       lr_contents := js c;
       lr_loader := "js" |} in
  let* _ := if useCache io options
            then cache_set absPath result (originCss c) else ret tt in
  ret result.

(** Lines 211-259. *)
Definition onLoadModulesCss (io : InitialOptions) (ctx : BuildContext)
    (options : Options) (args : OnLoadArgs) : M OnLoadResult :=
  let absPath := absPath_of ctx (la_path args) in
  let* cached := if useCache io options then cache_get absPath else ret None in
  match cached with
  | Some cached => ret cached
  | None => compileAndStore io ctx options args
  end.


End handlers.

(** ** Preparation and registration: [prepareBuild] and [setup] *)

Inductive Handler :=
| HResolveModulesCss
| HLoadModulesCss
| HResolveBuiltModulesCss
| HLoadBuiltModulesCss
| HEnd.

Record Registration := {
  reg_handler : Handler;
  reg_filter : option (string → bool);
  reg_namespace : option string
}.

Record Build := {
  initialOptions : InitialOptions;
  context : option BuildContext;
  registered : list Registration
}.

Section setup.
Context `{ContextUtils}.

(** Lines 146-166.  [new BuildCache(build)] starts from an empty store
    (modelled from the spec: the cache lives as long as the context). *)
Definition prepareBuild (build : Build) (options : Options) : M Build :=
  let* buildId :=
    (λ w, (getBuildId (initialOptions build) (files w), w)) in
  let packageVersion := getPackageVersion (initialOptions build) in
  let build :=
    {| initialOptions := set_metafile true (initialOptions build);
       context := context build;
       registered := registered build |} in
  let packageRoot := root options in
  let buildRoot := getRootDir (initialOptions build) in
  let relative := λ to, getRelativePath buildRoot to in
  let build :=
    {| initialOptions := initialOptions build;
       context := Some {| buildId := buildId;
                          buildRoot := buildRoot;
                          packageRoot := packageRoot;
                          packageVersion := packageVersion;
                          relative := relative |};
       registered := registered build |} in
  let* _ := (λ w, (Ok tt, with_cache ∅ w)) in
  ret build.

Definition register (r : Registration) (build : Build) : Build :=
  {| initialOptions := initialOptions build;
     context := context build;
     registered := registered build ++ [r] |}.

(** Lines 456-496. *)
Definition setup (build : Build) (options : Options) : M Build :=
  let* build := prepareBuild build options in
  let modulesCssRegExp := getModulesCssRegExp options in
  let builtModulesCssRegExp := getBuiltModulesCssRegExp options in
  let build :=
    register {| reg_handler := HResolveModulesCss;
                reg_filter := Some modulesCssRegExp;
                reg_namespace := Some "file" |} build in
  let build :=
    register {| reg_handler := HLoadModulesCss;
                reg_filter := Some modulesCssRegExp;
                reg_namespace := Some pluginNamespace |} build in
  let build :=
    register {| reg_handler := HResolveBuiltModulesCss;
                reg_filter := Some builtModulesCssRegExp;
                reg_namespace := Some pluginNamespace |} build in
  let build :=
    register {| reg_handler := HLoadBuiltModulesCss;
                reg_filter := Some builtModulesCssRegExp;
                reg_namespace := Some pluginNamespace |} build in
  let build :=
    register {| reg_handler := HEnd;
                reg_filter := None;
                reg_namespace := None |} build in
  ret build.

End setup.

(** ** The injection synthesizer: [onEnd] *)

(** One output of the build's manifest.  [cssBundle] is the stylesheet the
    bundler produced for an entry output that imports CSS; [onEnd] does
    not read it. *)
Record OutputMeta := {
  entryPoint : option string;
  cssBundle : option string
}.

Record BuildResult := {
  metafile : option (JsObject OutputMeta)     (* [result.metafile.outputs] *)
}.

(** The callbacks that [onEnd] hands to [Promise.all] start in manifest
    order and run up to their first [await]; the reads and transforms of
    the CSS outputs then complete in an order that the scheduler
    chooses. *)
Class Scheduler := {
  completion_order : list string → list string;
  completion_order_perm : ∀ l, completion_order l ≡ₚ l
}.

Definition str_truthy (s : option string) : bool :=
  match s with
  | Some s => negb (bool_decide (s = ""))
  | None => false
  end.

Definition sourcemap_truthy (s : option SourcemapOption) : bool :=
  match s with
  | Some (SourcemapBool b) => b
  | Some (SourcemapMode m) => negb (bool_decide (m = ""))
  | None => false
  end.

(** [sourcemap === 'external'] *)
Definition sourcemap_is_external (s : option SourcemapOption) : bool :=
  match s with
  | Some (SourcemapMode m) => bool_decide (m = "external")
  | _ => false
  end.

Fixpoint mapM {A B} (f : A → M B) (l : list A) : M (list B) :=
  match l with
  | [] => ret []
  | x :: l' =>
      let* y := f x in
      let* ys := mapM f l' in
      ret (y :: ys)
  end.

Section onEnd.
Context `{NodePath, Externals, Utils, Scheduler}.

Definition ends_with_slash (s : string) : bool :=
  match String.rev s with
  | String c _ => bool_decide (c = "/"%char)
  | EmptyString => false
  end.

Definition tmpJsPath_of (absOutdir : string) : string :=
  path_resolve absOutdir ".build.inject.js".

(** Lines 343-354. *)
Definition transformCss (io : InitialOptions) (css : string) : M string :=
  lift (esbuild_transform css
          {| to_charset := default "utf8" (io_charset io);
             to_loader := "css";
             to_sourcemap := false;
             to_minify := true;
             to_logLevel := io_logLevel io;
             to_format := io_format io;
             to_target := io_target io |}).

Definition nestedBuildOptions (io : InitialOptions) (absOutdir entryName
    tmpJsPath : string) : NestedBuildOptions :=
  {| nb_charset := default "utf8" (io_charset io);
     nb_absWorkingDir := absOutdir;
     nb_write := true;
     nb_allowOverwrite := true;
     nb_treeShaking := false;
     nb_logLevel := io_logLevel io;
     nb_format := io_format io;
     nb_target := io_target io;
     nb_minify := io_minify io;
     nb_sourceRoot := io_sourceRoot io;
     nb_publicPath := io_publicPath io;
     nb_sourcemap := io_sourcemap io;
     nb_sourcesContent := io_sourcesContent io;
     nb_entryPoints := [(entryName, tmpJsPath)];
     nb_outdir := absOutdir;
     nb_bundle := true;
     nb_external := io_external io |}.

(** [await esbuild.build(...)] *)
Definition nestedBuild (opts : NestedBuildOptions) : M unit :=
  λ w, let '(r, f) := esbuild_build opts (files w) in (r, with_files f w).

(** Lines 359-371: the source-map reference of the entry output. *)
Definition patchSourceMapUrl (io : InitialOptions) (r : string → string)
    (entryPath : string) : M unit :=
  if sourcemap_is_external (io_sourcemap io) then
    appendFile entryPath
      (nl +:+ "//# sourceMappingURL=" +:+ r entryPath +:+ ".map")
  else if str_truthy (io_publicPath io) && sourcemap_truthy (io_sourcemap io)
  then
    let publicPath := default "" (io_publicPath io) in
    let fixedPublicPath :=
      if ends_with_slash publicPath then publicPath
      else publicPath +:+ "/" in
    let* entryContent := readFile entryPath in
    writeFile entryPath
      (Js.replace_first ("sourceMappingURL=" +:+ fixedPublicPath)
                        "sourceMappingURL=" entryContent)
  else ret tt.

(** Lines 356-397. *)
Definition buildJs (io : InitialOptions) (absOutdir entryName entryPath
    jsCode : string) : M unit :=
  let r := λ p, Js.replace_char path_sep "/"%char (path_relative absOutdir p) in
  let imports :=
    "import " +:+ dq +:+ "./" +:+ r entryPath +:+ dq +:+ ";" +:+ nl +:+
    "export * from " +:+ dq +:+ "./" +:+ r entryPath +:+ dq +:+ ";" in
  let* _ := patchSourceMapUrl io r entryPath in
  let tmpJsCode := imports +:+ nl +:+ jsCode in
  let tmpJsPath := tmpJsPath_of absOutdir in
  let* _ := writeFile tmpJsPath tmpJsCode in
  let* _ := tell (EvNestedBuild entryName entryPath tmpJsCode) in
  let* _ := nestedBuild (nestedBuildOptions io absOutdir entryName tmpJsPath) in
  unlink tmpJsPath.

(** Lines 401-411. *)
Definition entriesArray (entryPoints : EntryPoints) : list EntryPoint :=
  match entryPoints with
  | EntryArray l => l
  | EntryObject o => omap (obj_get o) (js_sort (obj_keys o))
  end.

Definition entries_of (ctx : BuildContext) (entryPoints : EntryPoints)
  : list string :=
  map (λ p, if path_isAbsolute (entry_in p) then entry_in p
            else path_resolve (buildRoot ctx) (entry_in p))
      (entriesArray entryPoints).

Definition is_js_ext (f : string) : bool :=
  bool_decide (path_extname f ∈ [".js"; ".mjs"; ".cjs"]).

(** Lines 420-427, the part of each callback that runs before its first
    [await]: one step of the choice of [entryToInject]. *)
Definition pickEntry (ctx : BuildContext) (entries : list string)
    (outputs : JsObject OutputMeta) (entryToInject : option string)
    (f : string) : option string :=
  if negb (str_truthy entryToInject) &&
     match obj_get outputs f with
     | Some o =>
         str_truthy (entryPoint o) &&
         bool_decide (path_resolve (buildRoot ctx)
                        (default "" (entryPoint o)) ∈ entries)
     | None => false
     end &&
     is_js_ext f
  then Some (path_resolve (buildRoot ctx) f)
  else entryToInject.

Definition is_css_ext (f : string) : bool :=
  bool_decide (path_extname f = ".css").

(** Lines 428-433. *)
Definition readCss (io : InitialOptions) (ctx : BuildContext) (f : string)
  : M string :=
  let fullpath := path_resolve (buildRoot ctx) f in
  let* css := readFile fullpath in
  transformCss io css.

(** Lines 321-448. *)
Definition onEnd (io : InitialOptions) (ctx : BuildContext)
    (options : Options) (result : BuildResult) : M unit :=
  if inject_truthy (inject options) then
    let* absOutdir :=
      match io_outdir io with
      | Some outdir =>
          ret (if path_isAbsolute outdir then outdir
               else path_resolve (buildRoot ctx) outdir)
      | None => throw (TypeError "The path argument must be of type string")
      end in
    let* entries :=
      match io_entryPoints io with
      | Some entryPoints => ret (entries_of ctx entryPoints)
      | None => throw (TypeError "Cannot convert undefined or null to object")
      end in
    let manifest := default [] (metafile result) in
    let outputs := obj_keys manifest in
    let entryToInject := foldl (pickEntry ctx entries manifest) None outputs in
    let* cssContents :=
      mapM (readCss io ctx) (completion_order (filter is_css_ext outputs)) in
    if str_truthy entryToInject && negb (bool_decide (cssContents = [])) then
      let entryToInject := default "" entryToInject in
      let entryName :=
        path_basename_ext entryToInject (path_extname entryToInject) in
      let allCss := Js.join nl cssContents in
      let container :=
        match inject options with
        | InjectSelector s => s
        | _ => "head"
        end in
      let injectedCode :=
        buildInjectCode container allCss (buildId ctx) options in
      buildJs io absOutdir entryName entryToInject injectedCode
    else ret tt
  else ret tt.

(** What the bundler awaits of a hook callback ([settled]) and the
    rejection, if any, of a promise that the callback started without
    awaiting or returning it ([unhandled]). *)
Record HookOutcome := {
  settled : Outcome unit;
  unhandled : option JsError
}.

(** Lines 493-495: [async (result) => { onEnd(build, options, result); }].
    The call starts [onEnd]; its promise is neither awaited nor
    returned, so the callback fulfils with [undefined]. *)
Definition onEnd_callback (io : InitialOptions) (ctx : BuildContext)
    (options : Options) (result : BuildResult) : World → HookOutcome * World :=
  λ w, let '(r, w') := onEnd io ctx options result w in
       ({| settled := Ok tt;
           unhandled := match r with Throw e => Some e | Ok _ => None end |},
        w').

(** The callbacks of the load hook return the promise of their handler
    (lines 467-469). *)
Definition onLoad_callback `{ContentDigest} (io : InitialOptions)
    (ctx : BuildContext) (options : Options) (args : OnLoadArgs)
  : World → HookOutcome * World :=
  λ w, let '(r, w') := onLoadModulesCss io ctx options args w in
       ({| settled := match r with Ok _ => Ok tt | Throw e => Throw e end;
           unhandled := None |},
        w').

End onEnd.

(** * Notions used in the statements *)

(** Two results of the adapter that agree on everything but the
    enumeration order of the raw export table they carry along. *)
Definition same_bindings (r1 r2 : Outcome CompiledCss * World) : Prop :=
  r1.2 = r2.2 ∧
  match r1.1, r2.1 with
  | Ok c1, Ok c2 =>
      js c1 = js c2 ∧ css c1 = css c2 ∧ originCss c1 = originCss c2 ∧
      resolveDir c1 = resolveDir c2
  | Throw e1, Throw e2 => e1 = e2
  | _, _ => False
  end.

Global Instance Event_eq_dec : EqDecision Event.
Proof. solve_decision. Defined.

(** How often the compiler adapter was invoked for a path. *)
Definition compile_count (p : string) (w : World) : nat :=
  length (filter (λ ev, ev = EvCompile p) (trace w)).

(** The cache events of a trace. *)
Definition is_cache_event (ev : Event) : bool :=
  match ev with
  | EvCacheGet _ | EvCacheSet _ => true
  | _ => false
  end.

Definition cache_events (w : World) : list Event :=
  filter (λ ev, is_cache_event ev = true) (trace w).

Section loader_definitions.
Context `{NodePath, Externals, Utils, ContentDigest}.



End loader_definitions.

Section onEnd_definitions.
Context `{NodePath, Externals, Utils, Scheduler}.

(** The entry output that [onEnd] chooses, and the CSS outputs it
    collects. *)
Definition chosenEntry (ctx : BuildContext) (entryPoints : EntryPoints)
    (result : BuildResult) : option string :=
  let manifest := default [] (metafile result) in
  foldl (pickEntry ctx (entries_of ctx entryPoints) manifest) None
        (obj_keys manifest).

Definition cssOutputs (result : BuildResult) : list string :=
  filter is_css_ext (obj_keys (default [] (metafile result))).

(** How often a nested rebuild was run for the entry output [p]. *)
Definition is_injection_of (p : string) (ev : Event) : bool :=
  match ev with
  | EvNestedBuild _ q _ => bool_decide (q = p)
  | _ => false
  end.

Definition injections (p : string) (w : World) : nat :=
  length (filter (λ ev, is_injection_of p ev = true) (trace w)).

(** The testable property of the specification, read on a run of [onEnd]
    from [w] to [w']: every output of a requested entry point receives
    exactly one injection when the entry imports CSS and none when it does
    not. *)
Definition one_blob_per_css_entry (ctx : BuildContext)
    (entryPoints : EntryPoints) (result : BuildResult) (w w' : World) : Prop :=
  ∀ f o,
    (f, o) ∈ default [] (metafile result) →
    is_js_ext f = true →
    str_truthy (entryPoint o) = true →
    path_resolve (buildRoot ctx) (default "" (entryPoint o))
      ∈ entries_of ctx entryPoints →
    let p := path_resolve (buildRoot ctx) f in
    (is_Some (cssBundle o) → injections p w' = injections p w + 1) ∧
    (cssBundle o = None → injections p w' = injections p w).

(** The text of the temporary entry file (lines 358 and 372). *)
Definition tmpJsCode_of (absOutdir entryPath jsCode : string) : string :=
  let r := λ p, Js.replace_char path_sep "/"%char (path_relative absOutdir p) in
  ("import " +:+ dq +:+ "./" +:+ r entryPath +:+ dq +:+ ";" +:+ nl +:+
   "export * from " +:+ dq +:+ "./" +:+ r entryPath +:+ dq +:+ ";")
  +:+ nl +:+ jsCode.

End onEnd_definitions.

(** * A small build to run the model on

    A build rooted at [/proj] under POSIX path conventions, with
    stand-ins for the external libraries that are just large enough for
    the stylesheets and outputs of the examples. *)

Module Demo.

Fixpoint after_last (c : ascii) (s : string) : option string :=
  match s with
  | EmptyString => None
  | String x s' =>
      match after_last c s' with
      | Some r => Some r
      | None => if bool_decide (x = c) then Some s' else None
      end
  end.

Fixpoint before_last (c : ascii) (s : string) : option string :=
  match s with
  | EmptyString => None
  | String x s' =>
      match before_last c s' with
      | Some r => Some (String x r)
      | None => if bool_decide (x = c) then Some EmptyString else None
      end
  end.

Definition basename (p : string) : string := default p (after_last "/" p).

Definition dirname (p : string) : string :=
  match before_last "/" p with
  | Some EmptyString => "/"
  | Some d => d
  | None => "."
  end.

Definition extname (p : string) : string :=
  let b := basename p in
  match before_last "." b with
  | Some EmptyString | None => ""
  | Some _ => "." +:+ default "" (after_last "." b)
  end.

Definition basename_ext (p ext : string) : string :=
  let b := basename p in
  if String.prefix (String.rev ext) (String.rev b) &&
     negb (bool_decide (ext = b))
  then String.substring 0 (String.length b - String.length ext) b
  else b.

Definition isAbsolute (p : string) : bool := String.prefix "/" p.

Definition resolve (from to : string) : string :=
  if isAbsolute to then to
  else if String.prefix "./" to then from +:+ "/" +:+ Js.drop 2 to
  else from +:+ "/" +:+ to.

Definition relative_to (from to : string) : string :=
  if String.prefix (from +:+ "/") to
  then Js.drop (S (String.length from)) to
  else to.

(** [path.posix], on normalised paths. *)
Definition posix : NodePath :=
  {| path_sep := "/"%char;
     path_isAbsolute := isAbsolute;
     path_resolve := resolve;
     path_relative := relative_to;
     path_basename := basename;
     path_basename_ext := basename_ext;
     path_extname := extname;
     path_dirname := dirname |}.

(** Words of an identifier made of letters and digits: a new word starts
    at a separator and at a capital that follows a small letter. *)
Definition is_upper (c : ascii) : bool :=
  ((65 <=? Js.code c) && (Js.code c <=? 90))%N.
Definition is_lower (c : ascii) : bool :=
  ((97 <=? Js.code c) && (Js.code c <=? 122))%N.
Definition to_lower (c : ascii) : ascii :=
  if is_upper c then ascii_of_N (Js.code c + 32) else c.
Definition to_upper (c : ascii) : ascii :=
  if is_lower c then ascii_of_N (Js.code c - 32) else c.

Definition flush (cur : string) : list string :=
  if bool_decide (cur = "") then [] else [cur].

Fixpoint words_go (prev_lower : bool) (cur s : string) : list string :=
  match s with
  | EmptyString => flush cur
  | String c s' =>
      if Js.is_alnum c then
        if is_upper c && prev_lower
        then flush cur ++ words_go false (String (to_lower c) EmptyString) s'
        else words_go (is_lower c) (cur +:+ String (to_lower c) EmptyString) s'
      else flush cur ++ words_go false "" s'
  end.

Definition words (s : string) : list string := words_go false "" s.

Definition upperFirst (s : string) : string :=
  match s with
  | EmptyString => EmptyString
  | String c s' => String (to_upper c) s'
  end.

Definition kebab (s : string) : string := Js.join "-" (words s).

Definition camel (s : string) : string :=
  match words s with
  | [] => ""
  | w :: ws => w +:+ Js.join "" (map upperFirst ws)
  end.

Definition export_of (scoped : string) : CssExport :=
  {| name := scoped; composes := []; isReferenced := false |}.

(** A transform that knows four stylesheets and rejects everything
    else. *)
Definition transform (cfg : BundleConfig) : Outcome TransformResult :=
  let code := bc_code cfg in
  if bool_decide (code = ".fooBar{}") then
    Ok {| tr_code := ".btn__fooBar_h1{}";
          tr_exports := Some [("fooBar", export_of "btn__fooBar_h1")];
          tr_map := Some "{}" |}
  else if bool_decide (code = ".b{}.a{}") then
    Ok {| tr_code := ".two__b_h2{}.two__a_h2{}";
          tr_exports := Some [("b", export_of "two__b_h2");
                              ("a", export_of "two__a_h2")];
          tr_map := Some "{}" |}
  else if bool_decide (code = ".class{}") then
    Ok {| tr_code := ".kw__class_h3{}";
          tr_exports := Some [("class", export_of "kw__class_h3")];
          tr_map := Some "{}" |}
  else if bool_decide (code = "") then
    Ok {| tr_code := ""; tr_exports := Some []; tr_map := Some "{}" |}
  else Throw (ExternalError "lightningcss" "Unexpected token").

Definition is_hex (c : ascii) : bool :=
  ((48 <=? Js.code c) && (Js.code c <=? 57) ||
   (97 <=? Js.code c) && (Js.code c <=? 102))%N.

(** A stand-in for the hash: 64 hexadecimal digits computed from the
    input. *)
Definition hash64 (s : string) : string :=
  String.substring 0 64
    (Js.filter_chars is_hex s +:+
     "0000000000000000000000000000000000000000000000000000000000000000").

(** The nested build, when it works: the bundle of the one entry is
    written to [outdir/name.js]. *)
Definition build_ok (opts : NestedBuildOptions) (fs : gmap string string)
  : Outcome unit * gmap string string :=
  match nb_entryPoints opts with
  | [(entryName, tmp)] =>
      match fs !! tmp with
      | Some code =>
          (Ok tt, <[nb_outdir opts +:+ "/" +:+ entryName +:+ ".js" := code]> fs)
      | None => (Throw (ExternalError "esbuild" "Could not resolve entry"), fs)
      end
  | _ => (Throw (ExternalError "esbuild" "No entry"), fs)
  end.

(** The nested build, when it fails. *)
Definition build_fails (opts : NestedBuildOptions) (fs : gmap string string)
  : Outcome unit * gmap string string :=
  (Throw (ExternalError "esbuild" "Build failed with 1 error"), fs).

Definition externals
    (nested : NestedBuildOptions → gmap string string →
              Outcome unit * gmap string string) : Externals :=
  {| css_transform := transform;
     camelCase := camel;
     kebabCase := kebab;
     sha256_hex := hash64;
     base64 := λ s, s;
     prettier_format := None;
     host_resolve := λ p dir, Ok (resolve (default "/proj" dir) p);
     esbuild_transform := λ css _, Ok css;
     esbuild_build := nested |}.

Definition utils : Utils :=
  {| jsKeywords :=
       ["break"; "case"; "catch"; "class"; "const"; "continue"; "debugger";
        "default"; "delete"; "do"; "else"; "export"; "extends"; "finally";
        "for"; "function"; "if"; "import"; "in"; "instanceof"; "new";
        "return"; "super"; "switch"; "this"; "throw"; "try"; "typeof"; "var";
        "void"; "while"; "with"; "yield"];
     buildInjectCode := λ container css id _,
       "inject(" +:+ container +:+ "," +:+ id +:+ "," +:+ css +:+ ")" |}.

Definition contextUtils : ContextUtils :=
  {| getBuildId := λ _ _, Ok "b1";
     getRootDir := λ io, default "/proj" (io_absWorkingDir io);
     getPackageVersion := λ _, Some "1.0.0";
     getRelativePath := λ root to, "./" +:+ relative_to root to;
     getModulesCssRegExp := λ _ p,
       String.prefix (String.rev ".module.css") (String.rev p);
     getBuiltModulesCssRegExp := λ _ p,
       String.prefix (String.rev builtCssSuffix) (String.rev p) |}.

Definition contentDigest : ContentDigest := λ content, content.

Definition inOrder : Scheduler :=
  {| completion_order := λ l, l;
     completion_order_perm := λ l, reflexivity l |}.

Definition ctx : BuildContext :=
  {| buildId := "b1";
     buildRoot := "/proj";
     packageRoot := None;
     packageVersion := Some "1.0.0";
     relative := λ to, "./" +:+ relative_to "/proj" to |}.

Definition io (watch : option WatchOption) : InitialOptions :=
  {| io_metafile := Some false;
     io_watch := watch;
     io_charset := None;
     io_outdir := Some "out";
     io_sourceRoot := None;
     io_sourcemap := None;
     io_sourcesContent := None;
     io_entryPoints := Some (EntryArray [EntryPath "src/a.js";
                                         EntryPath "src/b.js"]);
     io_minify := None;
     io_logLevel := None;
     io_format := None;
     io_target := None;
     io_external := None;
     io_publicPath := None;
     io_absWorkingDir := Some "/proj";
     io_bundle := Some true |}.

Definition options (inject : InjectOption) : Options :=
  {| inject := inject;
     generateTsFile := false;
     v2CssModulesOption := None;
     watch := None;
     root := None |}.

(** The sources: three stylesheets (one with a reserved class name, one
    that the transform rejects) and the outputs of a build with the two
    entry points [src/a.js] and [src/b.js], each importing a stylesheet
    of its own. *)
Definition sources : gmap string string :=
  list_to_map
    [("/proj/src/btn.module.css", ".fooBar{}");
     ("/proj/src/two.module.css", ".b{}.a{}");
     ("/proj/src/kw.module.css", ".class{}");
     ("/proj/src/broken.module.css", "{");
     ("/proj/out/a.js", "A();");
     ("/proj/out/a.css", ".a_h{}");
     ("/proj/out/b.js", "B();");
     ("/proj/out/b.css", ".b_h{}")].

Definition world : World :=
  {| files := sources; cache := ∅; trace := [] |}.

Definition loadArgs (rpath : string) : OnLoadArgs :=
  {| la_path := rpath;
     la_suffix := Some buildingCssSuffix;
     la_pluginData :=
       Some {| relativePathToBuildRoot := Some rpath; pd_css := None;
               pd_exports := None; pd_digest := None |} |}.

Definition manifest : JsObject OutputMeta :=
  [("out/a.js", {| entryPoint := Some "src/a.js"; cssBundle := Some "out/a.css" |});
   ("out/a.css", {| entryPoint := None; cssBundle := None |});
   ("out/b.js", {| entryPoint := Some "src/b.js"; cssBundle := Some "out/b.css" |});
   ("out/b.css", {| entryPoint := None; cssBundle := None |})].

Definition result : BuildResult := {| metafile := Some manifest |}.

Definition build : Build :=
  {| initialOptions := io None; context := None; registered := [] |}.

(** The loader and the post-build step of this build. *)
Definition load (watch : option WatchOption) (rpath : string) : M OnLoadResult :=
  @onLoadModulesCss posix (externals build_ok) utils contentDigest
    (io watch) ctx (options InjectUnset) (loadArgs rpath).

Definition compile (fullPath : string) : M CompiledCss :=
  @buildCssModulesJs posix (externals build_ok) utils fullPath
    (options InjectUnset) ctx.

Definition runOnEnd
    (nested : NestedBuildOptions → gmap string string →
              Outcome unit * gmap string string) : M unit :=
  @onEnd posix (externals nested) utils inOrder (io None) ctx
    (options (InjectBool true)) result.

Definition entryPoints : EntryPoints :=
  EntryArray [EntryPath "src/a.js"; EntryPath "src/b.js"].

(** Two enumerations of one export table. *)
Definition table_ba : TransformResult :=
  {| tr_code := ".two__b_h2{}.two__a_h2{}";
     tr_exports := Some [("b", export_of "two__b_h2");
                         ("a", export_of "two__a_h2")];
     tr_map := Some "{}" |}.

Definition table_ab : TransformResult :=
  {| tr_code := ".two__b_h2{}.two__a_h2{}";
     tr_exports := Some [("a", export_of "two__a_h2");
                         ("b", export_of "two__b_h2")];
     tr_map := Some "{}" |}.

End Demo.

(** * The rest of [lib/plugin.js] *)


Section built_module.
Context `{NodePath}.


(** Lines 421-424: the part of the condition of [pickEntry] that depends
    on the output alone. *)
Definition entryCandidate (ctx : BuildContext) (entries : list string)
    (outputs : JsObject OutputMeta) (f : string) : bool :=
  match obj_get outputs f with
  | Some o =>
      str_truthy (entryPoint o) &&
      bool_decide (path_resolve (buildRoot ctx) (default "" (entryPoint o))
                   ∈ entries)
  | None => false
  end && is_js_ext f.

End built_module.




(** * The older implementation of the plugin ([src/unnamed/part_000])

    It compiles a stylesheet with postcss-modules when the import is
    resolved, writes the generated module to a temporary directory and,
    when bundling, hands it to the load callback.  Its state is the file
    system (the files and the directories that the plugin has asked
    for), the SHA-256 object that the module keeps for all its calls, and
    the timers it has set.  Writing a file and creating a directory
    succeed; [console.log] is left out. *)

Module Legacy.

(** [localsConvention] and [generateScopedName] of postcss-modules: a
    name or pattern, or a function. *)
Inductive LocalsConvention :=
| ConventionName (name : string)
| ConventionFn (f : string → string → string → string).

Inductive ScopedName :=
| ScopedPattern (pattern : string)
| ScopedFn (f : string → string → string → string).

(** [options.inject]: [true], a function of the CSS and the digest,
    which may throw, or any other value. *)
Inductive Inject :=
| InjectTrue
| InjectFn (f : string → string → Outcome string)
| InjectOther.

Record Options := {
  localsConvention : option LocalsConvention;
  inject : option Inject;
  generateScopedName : option ScopedName;
  v2 : bool;
  bundle : bool
}.

(** [{ ...options, bundle }] *)
Definition with_bundle (b : bool) (o : Options) : Options :=
  {| localsConvention := localsConvention o;
     inject := inject o;
     generateScopedName := generateScopedName o;
     v2 := v2 o;
     bundle := b |}.

(** postcss with the postcss-modules plugin (the CSS it produces and the
    JSON it passes to [getJSON]), [JSON.stringify], SHA-256 and
    [path.join]. *)
Class Libraries := {
  postcss_modules : LocalsConvention → option ScopedName → string →
                    Outcome (string * JsObject string);
  json_stringify : JsObject string → string;
  sha256 : string → string;
  path_join : string → string → string
}.

Record State := {
  files : gmap string string;
  dirs : gset string;        (* the directories that were asked for *)
  hashed : string;           (* all that [hash.update] has received *)
  timers : list string       (* the files whose removal is scheduled *)
}.

Definition LM (A : Type) : Type := State → Outcome A * State.

Definition lret {A} (a : A) : LM A := λ s, (Ok a, s).
Definition lthrow {A} (e : JsError) : LM A := λ s, (Throw e, s).
Definition lbind {A B} (m : LM A) (k : A → LM B) : LM B :=
  λ s, match m s with
       | (Ok a, s') => k a s'
       | (Throw e, s') => (Throw e, s')
       end.
Definition llift {A} (r : Outcome A) : LM A := λ s, (r, s).

Notation "'let+' x ':=' m 'in' k" := (lbind m (λ x, k))
  (at level 10, x name, m at level 100, k at level 200).

Definition readFile (p : string) : LM string :=
  λ s, match files s !! p with
       | Some c => (Ok c, s)
       | None => (Throw (FsError "open" p), s)
       end.

Definition writeFile (p content : string) : LM unit :=
  λ s, (Ok tt, {| files := <[p := content]> (files s); dirs := dirs s;
                  hashed := hashed s; timers := timers s |}).

(** [ensureDir(p)] and [fs.ensureDirSync(p)] *)
Definition ensureDir (p : string) : LM unit :=
  λ s, (Ok tt, {| files := files s; dirs := {[ p ]} ∪ dirs s;
                  hashed := hashed s; timers := timers s |}).

(** [fs.copyFileSync(src, dest)] *)
Definition copyFile (src dest : string) : LM unit :=
  λ s, match files s !! src with
       | Some c => (Ok tt, {| files := <[dest := c]> (files s);
                              dirs := dirs s;
                              hashed := hashed s; timers := timers s |})
       | None => (Throw (FsError "copyfile" src), s)
       end.

(** Lines 41-42: [hash.update(cssFullPath)] on the hash object of the
    module, then the digest of a copy of it. *)
Definition updateAndDigest `{Libraries} (cssFullPath : string) : LM string :=
  λ s, let h := hashed s +:+ cssFullPath in
       (Ok (sha256 h),
        {| files := files s; dirs := dirs s; hashed := h;
           timers := timers s |}).

(** Lines 180-184: [setTimeout] with a callback that unlinks the file and
    ignores a failure. *)
Definition scheduleUnlink (p : string) : LM unit :=
  λ s, (Ok tt, {| files := files s; dirs := dirs s; hashed := hashed s;
                  timers := timers s ++ [p] |}).

(** The state once all timers have fired. *)
Definition afterTimers (s : State) : State :=
  {| files := foldl (λ fs p, delete p fs) (files s) (timers s);
     dirs := dirs s;
     hashed := hashed s;
     timers := [] |}.

Definition pluginNamespace : string := "esbuild-css-modules-plugin-namespace".

Definition backtick : string := String (ascii_of_nat 96) EmptyString.

(** Lines 46-55. *)
Definition injectTemplate : string :=
  Js.join nl
    [ "";
      "(function() {";
      "  if (!document.getElementById(digest)) {";
      "    var el = document.createElement('style');";
      "    el.id = digest;";
      "    el.textContent = css;";
      "    document.head.appendChild(el);";
      "  }";
      "})();";
      "    " ].

Record Compiled := {
  jsContent : string;
  cssContent : string
}.

(** [`.replace(/\.modules?\./, '.')`]: the first [.module.] or
    [.modules.] becomes a dot. *)
Fixpoint replace_modules_infix (s : string) : string :=
  if String.prefix ".modules." s then "." +:+ Js.drop 9 s
  else if String.prefix ".module." s then "." +:+ Js.drop 8 s
  else match s with
       | EmptyString => EmptyString
       | String c s' => String c (replace_modules_infix s')
       end.

(** [s.indexOf(pat) !== -1] *)
Fixpoint contains (pat s : string) : bool :=
  String.prefix pat s ||
  match s with
  | EmptyString => false
  | String _ s' => contains pat s'
  end.

(** What [setup] reads once: the working directory, the temporary
    directory it creates, and the options of the build and the plugin. *)
Record Env := {
  rootDir : string;
  tmpDirPath : string;
  outdir : option string;
  build_bundle : bool;
  options : Options
}.

Record OnResolveArgs := {
  path : string;
  resolveDir : string;
  importer : string;
  namespace : string;
  kind : string
}.

Record ResolveArgs := {
  ra_path : string;
  ra_tmpCss : string;
  ra_fullPath : string;
  ra_importer : string;
  ra_namespace : string;
  ra_resolveDir : string;
  ra_kind : string
}.

Record PluginData := {
  content : string;
  resolveArgs : ResolveArgs
}.

Record OnResolveResult := {
  res_path : string;
  res_namespace : string;
  res_pluginData : option PluginData
}.

Record OnLoadResult := {
  contents : string;
  loader : string;
  watchFiles : list string;
  load_resolveDir : string
}.

Section legacy.
Context `{NodePath, Libraries}.

(** Lines 14-78. *)
Definition buildCssModulesJS (cssFullPath : string) (options : Options)
  : LM Compiled :=
  let localsConvention :=
    default (ConventionName "camelCaseOnly") (localsConvention options) in
  let inject := default InjectTrue (inject options) in
  let+ css := readFile cssFullPath in
  let+ result :=
    llift (postcss_modules localsConvention (generateScopedName options) css) in
  let cssModulesJSON := result.2 in
  let classNames := json_stringify cssModulesJSON in
  let+ digest := updateAndDigest cssFullPath in
  let+ injectedCode :=
    match inject with
    | InjectTrue => lret injectTemplate
    | InjectFn f => llift (f css digest)
    | InjectOther => lret ""
    end in
  let jsContent :=
    if bundle options && v2 options then
      Js.join nl [ ""; "export default " +:+ classNames +:+ ";    "; "    " ]
    else
      Js.join nl
        [ "";
          "const digest = '" +:+ digest +:+ "';";
          "const css = " +:+ backtick +:+ result.1 +:+ backtick +:+ ";";
          injectedCode;
          "export default " +:+ classNames +:+ ";";
          "export { css, digest };";
          "  " ] in
  lret {| jsContent := jsContent; cssContent := result.1 |}.

(** Lines 90-99 and 106-109: the paths of one resolution. *)
Definition sourceFullPath_of (args : OnResolveArgs) : string :=
  path_resolve (resolveDir args) (path args).

Definition sourceBaseName_of (args : OnResolveArgs) : string :=
  path_basename_ext (sourceFullPath_of args)
                    (path_extname (sourceFullPath_of args)).

Definition tmpDir_of (env : Env) (args : OnResolveArgs) : string :=
  let sourceDir := path_dirname (sourceFullPath_of args) in
  let sourceRelDir := path_relative (path_dirname (rootDir env)) sourceDir in
  path_resolve (tmpDirPath env) sourceRelDir.

Definition tmpFilePath_of (env : Env) (args : OnResolveArgs) : string :=
  path_resolve (tmpDir_of env args) (sourceBaseName_of args +:+ ".css").

Definition tmpCss_of (args : OnResolveArgs) : string :=
  path_resolve (path_dirname (sourceFullPath_of args))
    (replace_modules_infix ("_tmp_" +:+ sourceBaseName_of args +:+ ".css")).

(** Lines 120-131. *)
Definition target_of (outdir : string) (args : OnResolveArgs) : string :=
  let absoluteOutdir :=
    if path_isAbsolute outdir then outdir
    else path_resolve (resolveDir args) outdir in
  let entryRelDir :=
    if path_isAbsolute (path args)
    then path_dirname (path_relative (resolveDir args) (path args))
    else path_dirname (path args) in
  let targetSubpath :=
    if negb (contains entryRelDir absoluteOutdir)
    then path_join entryRelDir (sourceBaseName_of args +:+ ".css.js")
    else sourceBaseName_of args +:+ ".css.js" in
  path_resolve absoluteOutdir targetSubpath.

(** Lines 89-164. *)
Definition onResolve (env : Env) (args : OnResolveArgs) : LM OnResolveResult :=
  let bundle := build_bundle env in
  let v2 := v2 (options env) in
  let sourceFullPath := sourceFullPath_of args in
  let tmpFilePath := tmpFilePath_of env args in
  let+ _ := ensureDir (tmpDir_of env args) in
  let+ built :=
    buildCssModulesJS sourceFullPath (with_bundle bundle (options env)) in
  let tmpCss := tmpCss_of args in
  let+ jsContent :=
    if bundle && v2 then
      let+ _ := writeFile tmpCss (cssContent built) in
      lret ("import " +:+ dq +:+ tmpCss +:+ dq +:+ ";" +:+ nl +:+
            "          " +:+ jsContent built)
    else lret (jsContent built) in
  let+ _ := writeFile (tmpFilePath +:+ ".js") jsContent in
  let+ _ :=
    if str_truthy (outdir env) && negb bundle then
      let target := target_of (default "" (outdir env)) args in
      let+ _ := ensureDir (path_dirname target) in
      copyFile (tmpFilePath +:+ ".js") target
    else lret tt in
  if negb bundle then
    lret {| res_path := sourceFullPath;
            res_namespace := "file";
            res_pluginData := None |}
  else
    lret {| res_path := tmpFilePath +:+ ".js";
            res_namespace := pluginNamespace;
            res_pluginData :=
              Some {| content := jsContent;
                      resolveArgs :=
                        {| ra_path := path args;
                           ra_tmpCss := tmpCss;
                           ra_fullPath := sourceFullPath;
                           ra_importer := importer args;
                           ra_namespace := namespace args;
                           ra_resolveDir := resolveDir args;
                           ra_kind := kind args |} |} |}.

(** Lines 166-192.  Reading [resolveArgs] of an undefined [pluginData]
    throws. *)
Definition onLoad (pluginData : option PluginData) : LM OnLoadResult :=
  match pluginData with
  | None => lthrow (TypeError "Cannot read properties of undefined")
  | Some d =>
      let tmpCss := ra_tmpCss (resolveArgs d) in
      let+ _ :=
        if negb (bool_decide (tmpCss = "")) then scheduleUnlink tmpCss
        else lret tt in
      lret {| contents := content d;
              loader := "js";
              watchFiles := [ra_fullPath (resolveArgs d)];
              load_resolveDir := ra_resolveDir (resolveArgs d) |}
  end.

End legacy.

End Legacy.

(** * More of the small build, and a small build for the older
      implementation *)

Module DemoMore.

(** An import of a stylesheet from [/proj/src]. *)
Definition resolveArgs : OnResolveArgs :=
  {| ra_path := EntryPath "./btn.module.css";
     ra_resolveDir := Some "/proj/src";
     ra_kind := "import-statement";
     ra_pluginData := None |}.


(** The options of the build with a public path and inline source
    maps. *)
Definition ioPublicPath : InitialOptions :=
  {| io_metafile := Some true;
     io_watch := None;
     io_charset := None;
     io_outdir := Some "out";
     io_sourceRoot := None;
     io_sourcemap := Some (SourcemapMode "inline");
     io_sourcesContent := None;
     io_entryPoints := Some Demo.entryPoints;
     io_minify := None;
     io_logLevel := None;
     io_format := None;
     io_target := None;
     io_external := None;
     io_publicPath := Some "https://cdn.example/";
     io_absWorkingDir := Some "/proj";
     io_bundle := Some true |}.


(** A build result without a manifest. *)
Definition noManifest : BuildResult := {| metafile := None |}.

(** A file system without the outputs of the build. *)
Definition emptyWorld : World := {| files := ∅; cache := ∅; trace := [] |}.

(** An entry output whose source map is referenced under the public
    path. *)
Definition mappedEntry : string :=
  "A();" +:+ nl +:+ "//# sourceMappingURL=https://cdn.example/a.js.map".

Definition mappedWorld : World :=
  {| files := {[ "/proj/out/a.js" := mappedEntry ]};
     cache := ∅;
     trace := [] |}.

(** A build whose entry output lies in a subdirectory of the output
    directory. *)
Definition nestedIo : InitialOptions :=
  {| io_metafile := Some true;
     io_watch := None;
     io_charset := None;
     io_outdir := Some "out";
     io_sourceRoot := None;
     io_sourcemap := None;
     io_sourcesContent := None;
     io_entryPoints := Some (EntryArray [EntryPath "src/x/a.js"]);
     io_minify := None;
     io_logLevel := None;
     io_format := None;
     io_target := None;
     io_external := None;
     io_publicPath := None;
     io_absWorkingDir := Some "/proj";
     io_bundle := Some true |}.

Definition nestedResult : BuildResult :=
  {| metafile :=
       Some [("out/x/a.js",
              {| entryPoint := Some "src/x/a.js";
                 cssBundle := Some "out/x/a.css" |});
             ("out/x/a.css", {| entryPoint := None; cssBundle := None |})] |}.

Definition nestedWorld : World :=
  {| files := list_to_map [("/proj/out/x/a.js", "XA();");
                           ("/proj/out/x/a.css", ".xa{}")];
     cache := ∅;
     trace := [] |}.


End DemoMore.

Module LegacyDemo.

Definition stringify (o : JsObject string) : string :=
  "{" +:+
  Js.join "," (map (λ e, dq +:+ e.1 +:+ dq +:+ ":" +:+ dq +:+ e.2 +:+ dq) o)
  +:+ "}".

(** A postcss that knows one stylesheet. *)
Definition libraries : Legacy.Libraries :=
  {| Legacy.postcss_modules := λ _ _ css,
       if bool_decide (css = ".a{}")
       then Ok ("._a_1{}", [("a", "_a_1")])
       else Throw (ExternalError "postcss" "Unknown word");
     Legacy.json_stringify := stringify;
     Legacy.sha256 := Demo.hash64;
     Legacy.path_join := λ a b,
       if bool_decide (a = ".") then b else a +:+ "/" +:+ b |}.

Definition options (v2 : bool) : Legacy.Options :=
  {| Legacy.localsConvention := None;
     Legacy.inject := None;
     Legacy.generateScopedName := None;
     Legacy.v2 := v2;
     Legacy.bundle := false |}.

(** Options whose [inject] callback throws. *)
Definition throwing : Legacy.Options :=
  {| Legacy.localsConvention := None;
     Legacy.inject :=
       Some (Legacy.InjectFn (λ _ _, Throw (Error "inject failed")));
     Legacy.generateScopedName := None;
     Legacy.v2 := false;
     Legacy.bundle := false |}.

Definition env (bundle v2 : bool) (outdir : option string) : Legacy.Env :=
  {| Legacy.rootDir := "/home/proj";
     Legacy.tmpDirPath := "/tmp/t1";
     Legacy.outdir := outdir;
     Legacy.build_bundle := bundle;
     Legacy.options := options v2 |}.

Definition args : Legacy.OnResolveArgs :=
  {| Legacy.path := "./btn.module.css";
     Legacy.resolveDir := "/home/proj/src";
     Legacy.importer := "/home/proj/src/a.js";
     Legacy.namespace := "file";
     Legacy.kind := "import-statement" |}.

Definition state : Legacy.State :=
  {| Legacy.files :=
       list_to_map [("/home/proj/src/btn.module.css", ".a{}");
                    ("/home/proj/src/card.module.css", ".a{}")];
     Legacy.dirs := ∅;
     Legacy.hashed := "";
     Legacy.timers := [] |}.

Definition compile (p : string) : Legacy.LM Legacy.Compiled :=
  @Legacy.buildCssModulesJS libraries p (options false).

Definition resolve (bundle v2 : bool) (outdir : option string)
  : Legacy.LM Legacy.OnResolveResult :=
  @Legacy.onResolve Demo.posix libraries (env bundle v2 outdir) args.

End LegacyDemo.

(** * The export surfaces of a generated module *)

Section export_surfaces.
Context `{Externals}.






End export_surfaces.

(** Two stylesheets with declarations for the small build: one whose two
    classes have the same kebab-case and camelCase forms, and one whose
    classes have not. *)
Module DemoExports.

Definition transform (cfg : BundleConfig) : Outcome TransformResult :=
  let code := bc_code cfg in
  if bool_decide (code = ".foo-bar{color:red}.fooBar{color:blue}") then
    Ok {| tr_code := ".clash__foo-bar_h4{color:red}.clash__fooBar_h4{color:blue}";
          tr_exports := Some [("foo-bar", Demo.export_of "clash__foo-bar_h4");
                              ("fooBar", Demo.export_of "clash__fooBar_h4")];
          tr_map := Some "{}" |}
  else if bool_decide (code = ".fooBar{color:red}.title{color:blue}") then
    Ok {| tr_code := ".card__fooBar_h5{color:red}.card__title_h5{color:blue}";
          tr_exports := Some [("fooBar", Demo.export_of "card__fooBar_h5");
                              ("title", Demo.export_of "card__title_h5")];
          tr_map := Some "{}" |}
  else Throw (ExternalError "lightningcss" "Unexpected token").

Definition externals : Externals :=
  {| css_transform := transform;
     camelCase := Demo.camel;
     kebabCase := Demo.kebab;
     sha256_hex := Demo.hash64;
     base64 := λ s, s;
     prettier_format := None;
     host_resolve := λ p dir, Ok (Demo.resolve (default "/proj" dir) p);
     esbuild_transform := λ css _, Ok css;
     esbuild_build := Demo.build_ok |}.

Definition world : World :=
  {| files :=
       list_to_map
         [("/proj/src/clash.module.css",
           ".foo-bar{color:red}.fooBar{color:blue}");
          ("/proj/src/card.module.css",
           ".fooBar{color:red}.title{color:blue}")];
     cache := ∅;
     trace := [] |}.

Definition compile (fullPath : string) : M CompiledCss :=
  @buildCssModulesJs Demo.posix externals Demo.utils fullPath
    (Demo.options InjectUnset) Demo.ctx.

End DemoExports.

(** * Properties *)

(** ** Strings *)

Lemma append_cons (x : ascii) (a b : string) :
  String x a +:+ b = String x (a +:+ b).
Proof. reflexivity. Qed.

Lemma append_nil_l (a : string) : "" +:+ a = a.
Proof. reflexivity. Qed.

Lemma append_assoc (a b c : string) : (a +:+ b) +:+ c = a +:+ b +:+ c.
Proof.
  induction a as [|x a IH]; [done |]. by rewrite !append_cons, IH.
Qed.

Lemma append_nil_r (a : string) : a +:+ "" = a.
Proof.
  induction a as [|x a IH]; [done |]. by rewrite append_cons, IH.
Qed.

Lemma occurs_in_refl s : Js.occurs_in s s.
Proof. exists "", "". by rewrite append_nil_l, append_nil_r. Qed.

Lemma occurs_in_app_l s a b : Js.occurs_in s a → Js.occurs_in s (a +:+ b).
Proof.
  intros (pre & post & ->). exists pre, (post +:+ b).
  by rewrite !append_assoc.
Qed.

Lemma occurs_in_app_r s a b : Js.occurs_in s b → Js.occurs_in s (a +:+ b).
Proof.
  intros (pre & post & ->). exists (a +:+ pre), post.
  by rewrite !append_assoc.
Qed.



(** ** Objects and the sorted iteration *)

Lemma js_sort_sorted keys : Sorted String.le (js_sort keys).
Proof. apply (Sorted_merge_sort String.le). Qed.

Lemma js_sort_perm keys : js_sort keys ≡ₚ keys.
Proof. apply merge_sort_Permutation. Qed.

Lemma js_sort_unique keys1 keys2 :
  keys1 ≡ₚ keys2 → js_sort keys1 = js_sort keys2.
Proof.
  intros Hp. apply (Sorted_unique String.le); try apply js_sort_sorted.
  by rewrite !js_sort_perm.
Qed.

Section object_lemmas.
Context {V : Type}.
Implicit Types o : JsObject V.

Lemma obj_get_Some_elem o k v : obj_get o k = Some v → (k, v) ∈ o.
Proof.
  induction o as [|[k' v'] o IH]; simpl; [done |].
  case_decide; intros Hg.
  - simplify_eq. apply elem_of_cons; by left.
  - apply elem_of_cons; right; auto.
Qed.

Lemma obj_get_None o k : obj_get o k = None ↔ k ∉ obj_keys o.
Proof.
  induction o as [|[k' v'] o IH]; simpl.
  - split; [intros _; apply not_elem_of_nil | done].
  - rewrite not_elem_of_cons. case_decide as Hk.
    + split; [done | intros [Hne _]; by destruct Hne].
    + rewrite IH. split; [intros ?; split; [congruence | done] |].
      by intros [_ ?].
Qed.

Lemma obj_get_elem_NoDup o k v :
  NoDup (obj_keys o) → (k, v) ∈ o → obj_get o k = Some v.
Proof.
  induction o as [|[k' v'] o IH]; simpl; [by inversion 2 |].
  intros [Hk Hnd]%NoDup_cons Hin.
  apply elem_of_cons in Hin as [Heq | Hin].
  - simplify_eq. by rewrite decide_True.
  - rewrite decide_False; [by apply IH |].
    intros ->. apply Hk. apply list_elem_of_fmap. by exists (k, v).
Qed.

Lemma obj_get_perm o1 o2 k :
  NoDup (obj_keys o1) → o1 ≡ₚ o2 → obj_get o1 k = obj_get o2 k.
Proof.
  intros Hnd Hp.
  assert (NoDup (obj_keys o2)) as Hnd2 by (unfold obj_keys; by rewrite <- Hp).
  destruct (obj_get o1 k) as [v|] eqn:H1.
  - symmetry. apply obj_get_elem_NoDup; [done |].
    rewrite <- Hp. by apply obj_get_Some_elem.
  - destruct (obj_get o2 k) as [v|] eqn:H2; [| done].
    apply obj_get_Some_elem in H2. rewrite <- Hp in H2.
    apply obj_get_elem_NoDup in H2; [congruence | done].
Qed.

End object_lemmas.

Lemma build_cssModulesJSON_perm (exports1 exports2 : JsObject CssExport) :
  NoDup (obj_keys exports1) → exports1 ≡ₚ exports2 →
  build_cssModulesJSON exports1 = build_cssModulesJSON exports2.
Proof.
  intros Hnd Hp. unfold build_cssModulesJSON.
  rewrite (js_sort_unique (obj_keys exports1) (obj_keys exports2))
    by (unfold obj_keys; by rewrite Hp).
  generalize (js_sort (obj_keys exports2)) ([] : JsObject string).
  intros keys. induction keys as [|k keys IH]; intros acc; simpl; [done |].
  by rewrite (obj_get_perm exports1 exports2 k Hnd Hp), IH.
Qed.

(** With identifiers that are neither canonical array indices nor
    [__proto__], the class-name map enumerates its keys in the sorted
    order in which they were assigned. *)
Lemma obj_set_fresh {V} (k : string) (v : V) (o : JsObject V) :
  k ≠ "__proto__" → array_index k = None → k ∉ obj_keys o →
  obj_set k v o = o ++ [(k, v)].
Proof.
  intros Hk Hi Hfresh. unfold obj_set. rewrite decide_False by done.
  apply obj_get_None in Hfresh. by rewrite Hfresh, Hi.
Qed.

Lemma build_cssModulesJSON_keys (exports : JsObject CssExport) :
  NoDup (obj_keys exports) →
  (∀ k, k ∈ obj_keys exports → k ≠ "__proto__" ∧ array_index k = None) →
  obj_keys (build_cssModulesJSON exports) = js_sort (obj_keys exports).
Proof.
  intros Hnd Hord. unfold build_cssModulesJSON.
  assert (NoDup (js_sort (obj_keys exports))) as Hnd'
    by by rewrite js_sort_perm.
  assert (∀ k, k ∈ js_sort (obj_keys exports) →
               k ≠ "__proto__" ∧ array_index k = None ∧
               is_Some (obj_get exports k)) as Hall.
  { intros k Hin. rewrite js_sort_perm in Hin.
    destruct (Hord k Hin) as [? ?]. split; [done |]. split; [done |].
    destruct (obj_get exports k) eqn:Hg; [by eexists |].
    by apply obj_get_None in Hg. }
  revert Hnd' Hall. generalize (js_sort (obj_keys exports)).
  intros keys Hnd' Hall.
  enough (∀ acc : JsObject string,
            (∀ k, k ∈ keys → k ∉ obj_keys acc) →
            obj_keys (foldl (λ cssModulesJSON originClass,
                       match obj_get exports originClass with
                       | Some e => obj_set originClass (name e) cssModulesJSON
                       | None => cssModulesJSON
                       end) acc keys) = obj_keys acc ++ keys) as Hgen.
  { apply (Hgen []). intros k _. apply not_elem_of_nil. }
  induction keys as [|k keys IH]; intros acc Hfresh; simpl.
  - by rewrite app_nil_r.
  - apply NoDup_cons in Hnd' as [Hk Hnd'].
    destruct (Hall k) as (Hp & Hi & [e He]); [by left |].
    rewrite He, obj_set_fresh; [| done | done | apply Hfresh; by left].
    rewrite IH; [| done | intros k' Hk'; apply Hall; by right |].
    + unfold obj_keys. by rewrite fmap_app, <- app_assoc.
    + intros k' Hk'. unfold obj_keys. rewrite fmap_app, elem_of_app.
      intros [Hin | Hin%list_elem_of_singleton].
      * apply (Hfresh k'); [by right | done].
      * simpl in Hin. by subst k'.
Qed.

(** ** The class-name map is deterministic (C7) *)

(** C7.  [buildCssModulesJs] iterates the original identifiers in sorted
    order: the list it walks is sorted for the code-unit order and is a
    rearrangement of [Object.keys(exports)]; the class-name map enumerates
    its keys in that order (identifiers that JavaScript treats specially
    as property names apart).  Therefore two results of the
    transform with the same CSS, source map and export table, enumerated
    in different orders, give the same class-name map (keys, scoped names
    and their order) and the same generated JS and CSS texts, files and
    errors. *)
Theorem class_map_sorted_deterministic `{NodePath, Externals, Utils}
    (fullPath : string) (options : Options) (ctx : BuildContext)
    (originCss : string) (t1 t2 : TransformResult) (w : World) :
  let exports1 := default [] (tr_exports t1) in
  let exports2 := default [] (tr_exports t2) in
  tr_code t1 = tr_code t2 →
  tr_map t1 = tr_map t2 →
  NoDup (obj_keys exports1) →
  exports1 ≡ₚ exports2 →
  Sorted String.le (js_sort (obj_keys exports1)) ∧
  js_sort (obj_keys exports1) ≡ₚ obj_keys exports1 ∧
  ((∀ k, k ∈ obj_keys exports1 → k ≠ "__proto__" ∧ array_index k = None) →
   obj_keys (build_cssModulesJSON exports1) = js_sort (obj_keys exports1)) ∧
  build_cssModulesJSON exports1 = build_cssModulesJSON exports2 ∧
  same_bindings (emitBindings fullPath options ctx originCss t1 w)
                (emitBindings fullPath options ctx originCss t2 w).
Proof.
  intros exports1 exports2 Hcode Hmap Hnd Hperm.
  pose proof (build_cssModulesJSON_perm exports1 exports2 Hnd Hperm) as Hjson.
  split; [apply js_sort_sorted |].
  split; [apply js_sort_perm |].
  split; [by apply build_cssModulesJSON_keys |].
  split; [done |].
  unfold same_bindings, emitBindings, bind, lift, ret.
  fold exports1 exports2. rewrite <- Hjson, <- Hcode, <- Hmap.
  destruct (namedExportLines fullPath (obj_entries (build_cssModulesJSON exports1)))
    as [lines | e]; simpl; [| done].
  destruct (generateTsFile options); simpl; [| done].
  destruct prettier_format as [format |]; simpl; [| done].
  match goal with |- context [format ?ts] => destruct (format ts) end;
    simpl; done.
Qed.

(** ** What a run of the adapter looks like *)

Section adapter_lemmas.
Context `{NodePath, Externals, Utils}.


Lemma namedExportLines_Throw fullPath entries :
  (∃ e, e ∈ entries ∧ validateNamedExport (camelCase e.1) = false) →
  ∃ camel, camel ∈ jsKeywords ∧
    namedExportLines fullPath entries
    = Throw (Error (reservedMessage camel fullPath)).
Proof.
  induction entries as [|[ccn className] entries IH]; simpl.
  - intros (e & He & _). by inversion He.
  - intros (e & He & Hbad).
    destruct (validateNamedExport (camelCase ccn)) eqn:Hv.
    + apply elem_of_cons in He as [-> | He]; [simpl in Hbad; congruence |].
      destruct IH as (camel & Hk & ->); [by exists e |].
      by exists camel.
    + exists (camelCase ccn). split; [| done].
      unfold validateNamedExport in Hv.
      apply bool_decide_eq_false in Hv.
      destruct (decide (camelCase ccn ∈ jsKeywords)); [done | by destruct Hv].
Qed.


(** The adapter touches neither the cache nor the trace beyond its own
    entry event, and its outcome depends on the world only through the
    files. *)
Lemma buildCssModulesJs_frame fullPath options ctx w :
  let r := buildCssModulesJs fullPath options ctx w in
  cache r.2 = cache w ∧ trace r.2 = trace w ++ [EvCompile fullPath].
Proof.
  unfold buildCssModulesJs, bind, tell, readFile, lift. simpl.
  destruct (files w !! fullPath) as [source |]; [| done]. simpl.
  destruct (css_transform _) as [t | e]; [| done].
  unfold emitBindings, bind, lift, ret.
  destruct (namedExportLines fullPath _) as [lines | e]; [| done].
  destruct (generateTsFile options); [| done].
  destruct prettier_format as [format |]; simpl; [| done].
  match goal with |- context [format ?ts] => destruct (format ts) end; done.
Qed.


End adapter_lemmas.

(** ** Assignment to a property *)

Section obj_set_lemmas.
Context {V : Type}.
Implicit Types o : JsObject V.

Lemma obj_update_new k v o : is_Some (obj_get o k) → (k, v) ∈ obj_update k v o.
Proof.
  induction o as [|[k' v'] o IH]; simpl; [by intros [? ?] |].
  case_decide; intros Hs.
  - apply elem_of_cons; by left.
  - apply elem_of_cons; right; auto.
Qed.

Lemma obj_update_keep k v o e : e ∈ o → e.1 ≠ k → e ∈ obj_update k v o.
Proof.
  induction o as [|[k' v'] o IH]; simpl; [done |].
  intros [-> | He]%elem_of_cons Hne.
  - simpl in Hne. rewrite decide_False by done. apply elem_of_cons; by left.
  - case_decide; apply elem_of_cons; right; auto.
Qed.

Lemma obj_insert_index_elem n k v o e :
  e ∈ obj_insert_index n k v o ↔ e = (k, v) ∨ e ∈ o.
Proof.
  induction o as [|[k' v'] o IH]; simpl.
  - rewrite list_elem_of_singleton.
    split; [by left | intros [? | Hin]; [done |]]. by apply elem_of_nil in Hin.
  - destruct (array_index k') as [n' |]; [destruct (n' <? n)%N |];
      rewrite ?elem_of_cons, ?IH, ?elem_of_cons; tauto.
Qed.

Lemma obj_set_new k v o : k ≠ "__proto__" → (k, v) ∈ obj_set k v o.
Proof.
  intros Hk. unfold obj_set. rewrite decide_False by done.
  destruct (obj_get o k) eqn:Hg.
  - apply obj_update_new. by rewrite Hg.
  - destruct (array_index k).
    + apply obj_insert_index_elem. by left.
    + apply elem_of_app; right. by apply list_elem_of_singleton.
Qed.

Lemma obj_set_keep k v o e : e ∈ o → e.1 ≠ k → e ∈ obj_set k v o.
Proof.
  intros He Hne. unfold obj_set. case_decide; [done |].
  destruct (obj_get o k).
  - by apply obj_update_keep.
  - destruct (array_index k).
    + apply obj_insert_index_elem. by right.
    + apply elem_of_app; by left.
Qed.

End obj_set_lemmas.

(** Every original identifier of the export table is a key of the
    class-name map, bound to its scoped name; the one exception is the
    identifier [__proto__], which an assignment cannot store. *)
Lemma class_map_covers_exports (exports : JsObject CssExport) k e :
  obj_get exports k = Some e → k ≠ "__proto__" →
  (k, name e) ∈ obj_entries (build_cssModulesJSON exports).
Proof.
  intros Hg Hk. unfold build_cssModulesJSON, obj_entries.
  assert (k ∈ js_sort (obj_keys exports)) as Hin.
  { rewrite js_sort_perm. apply obj_get_Some_elem in Hg.
    apply list_elem_of_fmap. by exists (k, e). }
  revert Hin. generalize (js_sort (obj_keys exports)).
  intros keys Hin.
  assert (k ∈ keys ∨ (k, name e) ∈ ([] : JsObject string)) as Hinv by by left.
  clear Hin. revert Hinv. generalize ([] : JsObject string).
  induction keys as [|k0 keys IH]; intros acc Hinv; simpl.
  - destruct Hinv as [Hin | Hin]; [by apply elem_of_nil in Hin | done].
  - apply IH. destruct Hinv as [[-> | Hin]%elem_of_cons | Hacc].
    + right. rewrite Hg. by apply obj_set_new.
    + by left.
    + right. destruct (obj_get exports k0) as [e0 |] eqn:Hg0; [| done].
      destruct (decide (k0 = k)) as [-> | Hne].
      * assert (e0 = e) as -> by congruence. by apply obj_set_new.
      * apply obj_set_keep; [done | simpl; congruence].
Qed.

(** ** The default export and reserved identifiers (C4) *)

Section exports_properties.
Context `{NodePath, Externals, Utils}.



(** C4.  When the class-name map of a stylesheet has a class whose
    camelCase form is a reserved identifier, [buildCssModulesJs] throws
    an error whose message contains the path of the source file; it
    returns no module and writes no file. *)
Theorem reserved_identifier_fails (fullPath : string) (options : Options)
    (ctx : BuildContext) (w : World) (source : string)
    (t : TransformResult) (orig scoped : string) :
  files w !! fullPath = Some source →
  css_transform (bundleConfig fullPath options ctx source) = Ok t →
  (orig, scoped) ∈ obj_entries (build_cssModulesJSON (default [] (tr_exports t))) →
  camelCase orig ∈ jsKeywords →
  ∃ camel,
    camel ∈ jsKeywords ∧
    buildCssModulesJs fullPath options ctx w
    = (Throw (Error (reservedMessage camel fullPath)),
       emit (EvCompile fullPath) w) ∧
    Js.occurs_in fullPath (reservedMessage camel fullPath).
Proof.
  intros Hf Ht Hin Hres.
  destruct (namedExportLines_Throw fullPath
              (obj_entries (build_cssModulesJSON (default [] (tr_exports t)))))
    as (camel & Hk & Hthrow).
  { exists (orig, scoped). split; [done |]. simpl.
    unfold validateNamedExport. apply bool_decide_eq_false. tauto. }
  exists camel. split; [done |]. split.
  - unfold buildCssModulesJs, bind, tell, readFile, lift. simpl.
    rewrite Hf, Ht. unfold emitBindings, bind, lift. by rewrite Hthrow.
  - unfold reservedMessage.
    do 5 apply occurs_in_app_r. apply occurs_in_app_l, occurs_in_refl.
Qed.

End exports_properties.

(** ** The build cache in the loader (C1, C10) *)

Lemma strip_query_ts_ne (p : string) : Js.strip_query p +:+ ".ts" ≠ p.
Proof.
  induction p as [|c p IH]; [done |].
  simpl. destruct (bool_decide (c = "?"%char)) eqn:Hc; simpl.
  - apply bool_decide_eq_true in Hc as ->.
    destruct (negb (bool_decide (p = "")) &&
              negb (Js.existsb_chars Js.is_line_terminator p)).
    + rewrite append_nil_l. discriminate.
    + rewrite append_cons. intros [= Heq]. by apply IH.
  - rewrite append_cons. intros [= Heq]. by apply IH.
Qed.

Section loader_lemmas.
Context `{NodePath, Externals, Utils, ContentDigest}.


Lemma onLoadModulesCss_unfold io ctx options args w :
  onLoadModulesCss io ctx options args w =
  (let* cached := (if useCache io options
                   then cache_get (absPath_of ctx (la_path args))
                   else ret None) in
   match cached with
   | Some cached => ret cached
   | None => compileAndStore io ctx options args
   end) w.
Proof. reflexivity. Qed.



Lemma compile_count_app p w evs w' :
  trace w' = trace w ++ evs →
  compile_count p w' = compile_count p w
                       + length (filter (λ ev, ev = EvCompile p) evs).
Proof.
  intros Ht. unfold compile_count. by rewrite Ht, filter_app, length_app.
Qed.

End loader_lemmas.

Section cache_properties.
Context `{NodePath, Externals, Utils, ContentDigest}.





(** C10.  When the loader finds no usable cache entry and the compiler
    adapter then throws, the load fails with the same error and the cache
    is left as it was: no entry is added or overwritten, and no store is
    attempted. *)
Theorem failed_compile_leaves_cache (io : InitialOptions) (ctx : BuildContext)
    (options : Options) (args : OnLoadArgs) (w w0 w1 : World) (e : JsError) :
  let absPath := absPath_of ctx (la_path args) in
  (if useCache io options then cache_get absPath else ret None) w
    = (Ok None, w0) →
  is_Some (relativePathToBuildRoot (default empty_pluginData (la_pluginData args))) →
  buildCssModulesJs absPath options ctx w0 = (Throw e, w1) →
  onLoadModulesCss io ctx options args w = (Throw e, w1) ∧
  cache w1 = cache w ∧
  (∀ p, EvCacheSet p ∈ trace w1 → EvCacheSet p ∈ trace w).
Proof.
  intros absPath Hprobe [rpath Hr] Hrun.
  pose proof (buildCssModulesJs_frame absPath options ctx w0) as [Hc Ht].
  rewrite Hrun in Hc, Ht. simpl in Hc, Ht.
  assert (cache w0 = cache w ∧
          (trace w0 = trace w ∨ trace w0 = trace w ++ [EvCacheGet absPath]))
    as [Hc0 Ht0].
  { destruct (useCache io options).
    - unfold cache_get, bind, tell in Hprobe. simpl in Hprobe.
      destruct (cache w !! absPath) as [entry |].
      + destruct (files w !! absPath) as [content |]; [| done].
        case_decide; [done |]. injection Hprobe as <-. by split; [| right].
      + injection Hprobe as <-. by split; [| right].
    - injection Hprobe as <-. by split; [| left]. }
  split; [| split].
  - rewrite onLoadModulesCss_unfold. unfold bind at 1. fold absPath.
    rewrite Hprobe. unfold compileAndStore, bind, path_digest.
    rewrite Hr. simpl. fold absPath. by rewrite Hrun.
  - congruence.
  - intros p. rewrite Ht. destruct Ht0 as [-> | ->];
      rewrite ?elem_of_app, ?list_elem_of_singleton; intros Hin.
    + destruct Hin as [? | ?]; [done | discriminate].
    + destruct Hin as [[? | ?] | ?]; [done | discriminate | discriminate].
Qed.

End cache_properties.

(** ** The digest of a load result (C6) *)



Section digest_properties.
Context `{NodePath, Externals, Utils, ContentDigest}.




(** The resolver attaches the build-root-relative form of the resolved
    path, which is also the path of the virtual module. *)
Lemma onResolveModulesCss_relative args ctx w r w' :
  onResolveModulesCss args ctx w = (Ok r, w') →
  ∃ absPath,
    host_resolve (entry_in (ra_path args)) (ra_resolveDir args) = Ok absPath ∧
    rr_path r = relative ctx absPath ∧
    relativePathToBuildRoot (rr_pluginData r) = Some (relative ctx absPath) ∧
    rr_watchFiles r = [absPath].
Proof.
  unfold onResolveModulesCss, bind, lift, ret.
  destruct (host_resolve _ _) as [absPath | e]; [| done].
  intros [= <- <-]. by exists absPath.
Qed.


End digest_properties.

(** ** Preparation leaves the other options alone (C9) *)

(** C9.  When [setup] completes, the build's [initialOptions.metafile] is
    [true], whatever it was before, and every other field of
    [initialOptions] has the value it had. *)
Theorem setup_sets_only_metafile `{ContextUtils} (build build' : Build)
    (options : Options) (w w' : World) :
  setup build options w = (Ok build', w') →
  let io := initialOptions build in
  let io' := initialOptions build' in
  io_metafile io' = Some true ∧
  io' = set_metafile true io ∧
  io_watch io' = io_watch io ∧
  io_charset io' = io_charset io ∧
  io_outdir io' = io_outdir io ∧
  io_sourceRoot io' = io_sourceRoot io ∧
  io_sourcemap io' = io_sourcemap io ∧
  io_sourcesContent io' = io_sourcesContent io ∧
  io_entryPoints io' = io_entryPoints io ∧
  io_minify io' = io_minify io ∧
  io_logLevel io' = io_logLevel io ∧
  io_format io' = io_format io ∧
  io_target io' = io_target io ∧
  io_external io' = io_external io ∧
  io_publicPath io' = io_publicPath io ∧
  io_absWorkingDir io' = io_absWorkingDir io ∧
  io_bundle io' = io_bundle io.
Proof.
  unfold setup, prepareBuild, bind, ret.
  destruct (getBuildId (initialOptions build) (files w)) as [id | e]; [| done].
  intros [= <- _]. simpl. repeat split.
Qed.

(** ** The injection step (C2, C3, C8) *)

Section onEnd_lemmas.
Context `{NodePath, Externals, Utils, Scheduler}.

Lemma readCss_world io ctx f w : (readCss io ctx f w).2 = w.
Proof.
  unfold readCss, bind, readFile, transformCss, lift.
  by destruct (files w !! _).
Qed.

Lemma mapM_readCss io ctx l w :
  (mapM (readCss io ctx) l w).2 = w ∧
  ∀ ys, (mapM (readCss io ctx) l w).1 = Ok ys → length ys = length l.
Proof.
  induction l as [|f l [IHw IHl]]; simpl; [by split; [| intros ys [= <-]] |].
  unfold bind. pose proof (readCss_world io ctx f w) as Hw.
  destruct (readCss io ctx f w) as [[y | e] w1]; simpl in *; subst w1;
    [| by split].
  destruct (mapM (readCss io ctx) l w) as [[ys | e] w2]; simpl in *;
    [| by split].
  split; [done |]. intros ys' [= <-]. simpl. by rewrite (IHl ys).
Qed.

Lemma patchSourceMapUrl_trace io r entryPath w :
  trace (patchSourceMapUrl io r entryPath w).2 = trace w.
Proof.
  unfold patchSourceMapUrl.
  destruct (sourcemap_is_external (io_sourcemap io)); [done |].
  destruct (str_truthy (io_publicPath io) && sourcemap_truthy (io_sourcemap io));
    [| done].
  unfold bind, readFile, writeFile. by destruct (files w !! entryPath).
Qed.

(** [buildJs] runs the nested build at most once; when it returns
    normally it has run it, and the temporary entry file is gone. *)
Lemma buildJs_trace io absOutdir entryName entryPath jsCode w r w' :
  buildJs io absOutdir entryName entryPath jsCode w = (r, w') →
  (trace w' = trace w ∧ r ≠ Ok tt) ∨
  (trace w' = trace w ++ [EvNestedBuild entryName entryPath
                            (tmpJsCode_of absOutdir entryPath jsCode)] ∧
   (r = Ok tt → files w' !! tmpJsPath_of absOutdir = None)).
Proof.
  unfold buildJs, tmpJsCode_of. set (tmp := tmpJsPath_of absOutdir).
  set (rel := λ p, Js.replace_char path_sep "/"%char (path_relative absOutdir p)).
  unfold bind at 1.
  pose proof (patchSourceMapUrl_trace io rel entryPath w) as Ht.
  destruct (patchSourceMapUrl io rel entryPath w) as [[[] | e] w1];
    simpl in Ht.
  - unfold bind, writeFile, tell, nestedBuild, unlink. simpl.
    destruct (esbuild_build _ _) as [[[] | e] f']; simpl.
    + destruct (f' !! tmp) eqn:Hf; simpl; intros [= <- <-]; right; simpl;
        rewrite Ht; (split; [done |]); [| done].
      intros _. apply lookup_delete_eq.
    + intros [= <- <-]. right. simpl. rewrite Ht. by split.
  - intros [= <- <-]. left. by split.
Qed.

(** When the nested build fails, [buildJs] fails with its error and
    leaves the files as the failed build left them: the temporary entry
    file is not unlinked. *)
Lemma buildJs_nested_failure io absOutdir entryName entryPath jsCode w w1 e f' :
  let rel := λ p, Js.replace_char path_sep "/"%char (path_relative absOutdir p) in
  let tmp := tmpJsPath_of absOutdir in
  patchSourceMapUrl io rel entryPath w = (Ok tt, w1) →
  esbuild_build (nestedBuildOptions io absOutdir entryName tmp)
                (<[tmp := tmpJsCode_of absOutdir entryPath jsCode]> (files w1))
  = (Throw e, f') →
  ∃ w2, buildJs io absOutdir entryName entryPath jsCode w = (Throw e, w2) ∧
        files w2 = f'.
Proof.
  intros rel tmp Hpre Hbuild. unfold buildJs. fold rel tmp.
  unfold bind at 1. rewrite Hpre.
  unfold bind, writeFile, tell, nestedBuild, unlink. simpl.
  unfold tmpJsCode_of in Hbuild. fold rel in Hbuild. rewrite Hbuild.
  by eexists.
Qed.

End onEnd_lemmas.


(** ** The properties on the small build *)


Lemma failed_compile_leaves_cache_witness :
  ∃ e w1,
    Demo.load (Some (WatchBool true)) "./src/broken.module.css" Demo.world
      = (Throw e, w1) ∧
    cache w1 = cache Demo.world.
Proof.
  destruct (Demo.compile "/proj/src/broken.module.css"
              (emit (EvCacheGet "/proj/src/broken.module.css") Demo.world))
    as [[c | e] w1] eqn:Hrun; [by vm_compute in Hrun |].
  destruct (@failed_compile_leaves_cache Demo.posix
              (Demo.externals Demo.build_ok) Demo.utils Demo.contentDigest
              (Demo.io (Some (WatchBool true))) Demo.ctx
              (Demo.options InjectUnset)
              (Demo.loadArgs "./src/broken.module.css") Demo.world
              (emit (EvCacheGet "/proj/src/broken.module.css") Demo.world)
              w1 e eq_refl (mk_is_Some _ _ eq_refl) Hrun) as (Hload & Hcache & _).
  exists e, w1. split; [exact Hload | exact Hcache].
Defined.

Lemma class_map_sorted_deterministic_witness :
  build_cssModulesJSON (default [] (tr_exports Demo.table_ba))
  = build_cssModulesJSON (default [] (tr_exports Demo.table_ab)) ∧
  obj_keys (build_cssModulesJSON (default [] (tr_exports Demo.table_ba)))
  = ["a"; "b"].
Proof.
  split; [| by vm_compute].
  refine (proj1 (proj2 (proj2 (proj2
    (@class_map_sorted_deterministic Demo.posix (Demo.externals Demo.build_ok)
       Demo.utils "/proj/src/two.module.css" (Demo.options InjectUnset)
       Demo.ctx ".b{}.a{}" Demo.table_ba Demo.table_ab Demo.world
       eq_refl eq_refl _ _))))).
  - apply (bool_decide_unpack _). by vm_compute.
  - apply perm_swap.
Defined.

Lemma reserved_identifier_fails_witness :
  ∃ camel,
    Demo.compile "/proj/src/kw.module.css" Demo.world
    = (Throw (Error (reservedMessage camel "/proj/src/kw.module.css")),
       emit (EvCompile "/proj/src/kw.module.css") Demo.world) ∧
    Js.occurs_in "/proj/src/kw.module.css"
                 (reservedMessage camel "/proj/src/kw.module.css").
Proof.
  destruct (@reserved_identifier_fails Demo.posix (Demo.externals Demo.build_ok)
              Demo.utils "/proj/src/kw.module.css" (Demo.options InjectUnset)
              Demo.ctx Demo.world ".class{}"
              {| tr_code := ".kw__class_h3{}";
                 tr_exports := Some [("class", Demo.export_of "kw__class_h3")];
                 tr_map := Some "{}" |}
              "class" "kw__class_h3" eq_refl eq_refl)
    as (camel & _ & Hrun & Hmsg).
  - vm_compute. by left.
  - apply (bool_decide_unpack _). by vm_compute.
  - exists camel. split; [exact Hrun | exact Hmsg].
Defined.


Lemma setup_sets_only_metafile_witness :
  ∃ build' w',
    @setup Demo.contextUtils Demo.build (Demo.options InjectUnset) Demo.world
      = (Ok build', w') ∧
    io_metafile (initialOptions Demo.build) = Some false ∧
    io_metafile (initialOptions build') = Some true ∧
    io_outdir (initialOptions build') = Some "out".
Proof.
  destruct (@setup Demo.contextUtils Demo.build (Demo.options InjectUnset)
              Demo.world) as [[build' | e] w'] eqn:Hsetup;
    [| by vm_compute in Hsetup].
  pose proof (@setup_sets_only_metafile Demo.contextUtils Demo.build build'
                (Demo.options InjectUnset) Demo.world w' Hsetup) as Hset.
  exists build', w'. split; [done |]. split; [reflexivity |].
  split; [apply Hset |]. destruct Hset as (_ & _ & _ & _ & -> & _).
  reflexivity.
Defined.

(** C2, as the specification states it, fails on a build with the two
    entry points [src/a.js] and [src/b.js], each importing a stylesheet of
    its own: the output of [src/b.js] has a CSS bundle and receives no
    injection. *)
Lemma second_entry_not_injected :
  ¬ @one_blob_per_css_entry Demo.posix Demo.ctx Demo.entryPoints Demo.result
      Demo.world (Demo.runOnEnd Demo.build_ok Demo.world).2.
Proof.
  intros Hclaim.
  destruct (Hclaim "out/b.js"
              {| entryPoint := Some "src/b.js"; cssBundle := Some "out/b.css" |})
    as [Hone _].
  - unfold Demo.result, Demo.manifest. simpl. by do 2 right; left.
  - reflexivity.
  - reflexivity.
  - vm_compute. by right; left.
  - specialize (Hone (mk_is_Some _ _ eq_refl)). by vm_compute in Hone.
Qed.

(** What the run on that build does: one nested rebuild, of the output of
    [src/a.js], whose injected code holds the CSS of both stylesheets;
    the output of [src/b.js] is as it was. *)
Example first_entry_gets_all_css :
  ∃ code,
    trace (Demo.runOnEnd Demo.build_ok Demo.world).2
      = [EvNestedBuild "a" "/proj/out/a.js" code] ∧
    Js.occurs_in (".a_h{}" +:+ nl +:+ ".b_h{}") code ∧
    files (Demo.runOnEnd Demo.build_ok Demo.world).2 !! "/proj/out/b.js"
      = Some "B();".
Proof.
  eexists. split; [by vm_compute |]. split; [| by vm_compute].
  exists ("import " +:+ dq +:+ "./a.js" +:+ dq +:+ ";" +:+ nl +:+
          "export * from " +:+ dq +:+ "./a.js" +:+ dq +:+ ";" +:+ nl +:+
          "inject(head,b1,"), ")".
  by vm_compute.
Qed.

(** The callback that [setup] registers for the end of the build fulfils
    whatever [onEnd] does; a rejection of [onEnd] stays on a promise that
    nobody awaits. *)
Lemma onEnd_callback_fulfils `{NodePath, Externals, Utils, Scheduler}
    (io : InitialOptions) (ctx : BuildContext) (options : Options)
    (result : BuildResult) (w : World) :
  settled (onEnd_callback io ctx options result w).1 = Ok tt ∧
  unhandled (onEnd_callback io ctx options result w).1
  = match (onEnd io ctx options result w).1 with
    | Throw e => Some e
    | Ok _ => None
    end.
Proof.
  unfold onEnd_callback. by destruct (onEnd io ctx options result w).
Qed.

(** C3, on the small build with a nested rebuild that fails: the failure
    propagates out of [buildJs] and [onEnd], but the callback registered
    by [setup] fulfils, so the bundler is not told; the load callback, in
    contrast, passes the failure of its handler on. *)
Theorem nested_failure_is_not_reported :
  (Demo.runOnEnd Demo.build_fails Demo.world).1
    = Throw (ExternalError "esbuild" "Build failed with 1 error") ∧
  (@onEnd_callback Demo.posix (Demo.externals Demo.build_fails) Demo.utils
     Demo.inOrder (Demo.io None) Demo.ctx (Demo.options (InjectBool true))
     Demo.result Demo.world).1
    = {| settled := Ok tt;
         unhandled := Some (ExternalError "esbuild" "Build failed with 1 error") |} ∧
  settled (@onLoad_callback Demo.posix (Demo.externals Demo.build_ok) Demo.utils
             Demo.contentDigest (Demo.io None) Demo.ctx
             (Demo.options InjectUnset)
             (Demo.loadArgs "./src/broken.module.css") Demo.world).1
    = Throw (ExternalError "lightningcss" "Unexpected token").
Proof. by vm_compute. Qed.

(** C8, on the same build: after the nested rebuild fails, the temporary
    entry file [.build.inject.js] is still in the output directory; it is
    removed when the rebuild succeeds. *)
Theorem temporary_entry_left_after_failure :
  (Demo.runOnEnd Demo.build_fails Demo.world).1
    = Throw (ExternalError "esbuild" "Build failed with 1 error") ∧
  is_Some (files (Demo.runOnEnd Demo.build_fails Demo.world).2
             !! "/proj/out/.build.inject.js") ∧
  (Demo.runOnEnd Demo.build_ok Demo.world).1 = Ok tt ∧
  files (Demo.runOnEnd Demo.build_ok Demo.world).2
    !! "/proj/out/.build.inject.js" = None.
Proof.
  split; [by vm_compute |]. split; [| split; by vm_compute].
  eexists. by vm_compute.
Qed.

(** * Further properties of [lib/plugin.js] *)

(** ** The class-name map and the export table *)

Section class_map_invariants.
Context {V : Type}.
Implicit Types o : JsObject V.

Lemma obj_update_keys k v o : obj_keys (obj_update k v o) = obj_keys o.
Proof.
  induction o as [|[k' v'] o IH]; simpl; [done |].
  case_decide; simpl; [by subst | by rewrite IH].
Qed.

Lemma obj_insert_index_keys n k v o :
  obj_keys (obj_insert_index n k v o) ≡ₚ k :: obj_keys o.
Proof.
  induction o as [|[k' v'] o IH]; simpl; [done |].
  destruct (array_index k') as [n' |]; [destruct (n' <? n)%N |]; simpl;
    [| done | done].
  rewrite IH. apply perm_swap.
Qed.

Lemma obj_set_keys_NoDup k v o :
  NoDup (obj_keys o) → NoDup (obj_keys (obj_set k v o)).
Proof.
  intros Hnd. unfold obj_set. case_decide; [done |].
  destruct (obj_get o k) eqn:Hg.
  - by rewrite obj_update_keys.
  - apply obj_get_None in Hg. destruct (array_index k).
    + rewrite obj_insert_index_keys. by apply NoDup_cons.
    + unfold obj_keys. rewrite fmap_app. simpl.
      apply NoDup_app. split; [done |]. split; [| apply NoDup_singleton].
      intros x Hx Hx'%list_elem_of_singleton. by subst.
Qed.

Lemma obj_update_elem_inv k v o e :
  e ∈ obj_update k v o → e = (k, v) ∨ e ∈ o.
Proof.
  induction o as [|[k' v'] o IH]; simpl; [by right |].
  case_decide; rewrite !elem_of_cons; intros [He | He]; auto.
  destruct (IH He); auto.
Qed.

Lemma obj_set_elem_inv k v o e : e ∈ obj_set k v o → e = (k, v) ∨ e ∈ o.
Proof.
  unfold obj_set. case_decide; [by right |].
  destruct (obj_get o k).
  - apply obj_update_elem_inv.
  - destruct (array_index k).
    + by intros ?%obj_insert_index_elem.
    + rewrite elem_of_app, list_elem_of_singleton. tauto.
Qed.

End class_map_invariants.

(** X1.  The class-name map that [buildCssModulesJs] builds has no key
    twice; each of its entries binds an identifier of the export table to
    the scoped name that the table gives it; and every identifier of the
    table other than [__proto__] has an entry. *)
Theorem class_map_agrees_with_exports (exports : JsObject CssExport) :
  NoDup (obj_keys (build_cssModulesJSON exports)) ∧
  (∀ k v, (k, v) ∈ obj_entries (build_cssModulesJSON exports) →
          ∃ e, obj_get exports k = Some e ∧ v = name e) ∧
  (∀ k e, obj_get exports k = Some e → k ≠ "__proto__" →
          (k, name e) ∈ obj_entries (build_cssModulesJSON exports)).
Proof.
  split; [| split; [| apply class_map_covers_exports]].
  - unfold build_cssModulesJSON.
    assert (NoDup (obj_keys ([] : JsObject string))) as Hacc by constructor.
    revert Hacc. generalize ([] : JsObject string).
    induction (js_sort (obj_keys exports)) as [|k keys IH]; intros acc Hacc;
      simpl; [done |].
    apply IH. destruct (obj_get exports k); [| done].
    by apply obj_set_keys_NoDup.
  - unfold build_cssModulesJSON, obj_entries.
    assert (∀ k v, (k, v) ∈ ([] : JsObject string) →
                   ∃ e, obj_get exports k = Some e ∧ v = name e) as Hacc.
    { intros k v Hin. by apply elem_of_nil in Hin. }
    revert Hacc. generalize ([] : JsObject string).
    induction (js_sort (obj_keys exports)) as [|k0 keys IH]; intros acc Hacc;
      simpl; [done |].
    apply IH. destruct (obj_get exports k0) as [e0 |] eqn:Hg; [| done].
    intros k v [[= -> ->] | Hin]%obj_set_elem_inv; [by exists e0 | auto].
Qed.

(** ** What a compilation writes *)

Lemma replace_char_removes (a b : ascii) (s : string) :
  a ≠ b →
  Js.existsb_chars (λ c, bool_decide (c = a)) (Js.replace_char a b s) = false.
Proof.
  intros Hab. unfold Js.replace_char.
  induction s as [|c s IH]; simpl; [done |].
  rewrite IH, orb_false_r. apply bool_decide_eq_false.
  case_bool_decide; congruence.
Qed.

(** X2.  [buildCssModulesJs] writes at most one file.  A compilation that
    fails writes nothing.  One that succeeds writes nothing unless a
    type-declaration file is requested; then it writes that one file, at
    the path of the stylesheet without its query and with [.ts] appended,
    which is never the stylesheet itself, and unless a formatter rewrites
    it the text has no double quote. *)
Theorem compile_writes_only_declaration `{NodePath, Externals, Utils}
    (fullPath : string) (options : Options) (ctx : BuildContext) (w : World) :
  match (buildCssModulesJs fullPath options ctx w).1 with
  | Throw _ => files (buildCssModulesJs fullPath options ctx w).2 = files w
  | Ok _ =>
      if generateTsFile options then
        ∃ ts,
          files (buildCssModulesJs fullPath options ctx w).2
          = <[Js.strip_query fullPath +:+ ".ts" := ts]> (files w) ∧
          Js.strip_query fullPath +:+ ".ts" ≠ fullPath ∧
          (prettier_format = None →
           Js.existsb_chars (λ c, bool_decide (c = ascii_of_nat 34)) ts = false)
      else files (buildCssModulesJs fullPath options ctx w).2 = files w
  end.
Proof.
  unfold buildCssModulesJs, bind, tell, readFile, lift. simpl.
  destruct (files w !! fullPath) as [source |]; [| done]. simpl.
  destruct (css_transform _) as [t | e]; [| done].
  unfold emitBindings, bind, lift, ret.
  destruct (namedExportLines fullPath _) as [lines | e]; [| done].
  destruct (generateTsFile options); [| done].
  destruct prettier_format as [format |] eqn:Hfmt; simpl.
  - match goal with |- context [format ?ts] => destruct (format ts) as [ts' | e] end;
      simpl; [| done].
    exists ts'. split; [done |]. split; [apply strip_query_ts_ne | done].
  - eexists. split; [done |]. split; [apply strip_query_ts_ne |].
    intros _. by apply replace_char_removes.
Qed.

(** ** Errors of the loader *)

Section loader_extras.
Context `{NodePath, Externals, Utils, ContentDigest}.


End loader_extras.

(** ** The four handlers in sequence *)

Section pipeline.
Context `{NodePath, Externals, Utils, ContentDigest}.


End pipeline.

(** ** The choice of the entry output *)

Section entry_choice.
Context `{NodePath, Externals, Utils, Scheduler}.

Lemma pickEntry_candidate ctx entries outputs e f :
  pickEntry ctx entries outputs e f =
  if negb (str_truthy e) && entryCandidate ctx entries outputs f
  then Some (path_resolve (buildRoot ctx) f) else e.
Proof.
  unfold pickEntry, entryCandidate. by rewrite andb_assoc.
Qed.

Lemma pickEntry_fold_none ctx entries outputs fs :
  (∀ f, f ∈ fs → entryCandidate ctx entries outputs f = false) →
  ∀ e, foldl (pickEntry ctx entries outputs) e fs = e.
Proof.
  induction fs as [|f fs IH]; intros Hnone e; simpl; [done |].
  rewrite pickEntry_candidate, Hnone, andb_false_r by by left.
  apply IH. intros g Hg. apply Hnone. by right.
Qed.

Lemma pickEntry_fold_truthy ctx entries outputs fs e :
  str_truthy e = true → foldl (pickEntry ctx entries outputs) e fs = e.
Proof.
  intros He. induction fs as [|f fs IH]; simpl; [done |].
  by rewrite pickEntry_candidate, He.
Qed.

Lemma pickEntry_fold_origin ctx entries outputs fs e :
  foldl (pickEntry ctx entries outputs) e fs = e ∨
  ∃ f, f ∈ fs ∧ entryCandidate ctx entries outputs f = true ∧
       foldl (pickEntry ctx entries outputs) e fs
       = Some (path_resolve (buildRoot ctx) f).
Proof.
  revert e. induction fs as [|f fs IH]; intros e; simpl; [by left |].
  rewrite pickEntry_candidate.
  destruct (negb (str_truthy e) && entryCandidate ctx entries outputs f)
    eqn:Hc.
  - apply andb_true_iff in Hc as [_ Hc].
    destruct (IH (Some (path_resolve (buildRoot ctx) f)))
      as [-> | (g & Hg & Hcg & ->)].
    + right. exists f. split; [by left | done].
    + right. exists g. split; [by right | done].
  - destruct (IH e) as [-> | (g & Hg & Hcg & ->)]; [by left |].
    right. exists g. split; [by right | done].
Qed.

(** X6.  The entry output that [onEnd] augments is the first candidate of
    the manifest: an output with a JS extension whose entry point
    resolves to one of the requested entry points.  With no candidate
    nothing is chosen; what is chosen is the resolved path of a
    candidate; and a candidate with no candidate before it (and a
    nonempty resolved path) is the one chosen, whatever follows it. *)
Theorem chosen_entry_is_first_candidate (ctx : BuildContext)
    (entryPoints : EntryPoints) (result : BuildResult) :
  let manifest := default [] (metafile result) in
  let candidate := entryCandidate ctx (entries_of ctx entryPoints) manifest in
  ((∀ f, f ∈ obj_keys manifest → candidate f = false) →
   chosenEntry ctx entryPoints result = None) ∧
  (∀ p, chosenEntry ctx entryPoints result = Some p →
        ∃ f, f ∈ obj_keys manifest ∧ candidate f = true ∧
             p = path_resolve (buildRoot ctx) f) ∧
  (∀ before f after,
     obj_keys manifest = before ++ f :: after →
     (∀ g, g ∈ before → candidate g = false) →
     candidate f = true →
     path_resolve (buildRoot ctx) f ≠ "" →
     chosenEntry ctx entryPoints result
     = Some (path_resolve (buildRoot ctx) f)).
Proof.
  intros manifest candidate. unfold chosenEntry. fold manifest.
  split; [| split].
  - intros Hnone. by apply pickEntry_fold_none.
  - intros p Hp.
    destruct (pickEntry_fold_origin ctx (entries_of ctx entryPoints) manifest
                (obj_keys manifest) None) as [Heq | (f & Hf & Hc & Heq)].
    + congruence.
    + exists f. split; [done |]. split; [done |]. congruence.
  - intros before f after Heq Hbefore Hc Hne. rewrite Heq.
    rewrite foldl_app.
    rewrite (pickEntry_fold_none ctx _ _ before Hbefore). simpl.
    rewrite pickEntry_candidate. fold candidate. rewrite Hc. simpl.
    apply pickEntry_fold_truthy. simpl. by rewrite bool_decide_eq_false_2.
Qed.

(** ** When [onEnd] has nothing to inject *)

(** X7.  With the output directory and the entry points configured, a
    build whose manifest lists no CSS output, in particular a result
    without a manifest, makes [onEnd] return normally and leave the world
    as it is, whether or not injection is enabled. *)
Theorem onEnd_without_css_outputs (io : InitialOptions) (ctx : BuildContext)
    (options : Options) (result : BuildResult) (w : World) :
  is_Some (io_outdir io) →
  is_Some (io_entryPoints io) →
  cssOutputs result = [] ∨ metafile result = None →
  onEnd io ctx options result w = (Ok tt, w).
Proof.
  intros [outdir Hout] [entryPoints Hep] Hcss.
  assert (cssOutputs result = []) as Hnil.
  { destruct Hcss as [? | Hm]; [done |]. unfold cssOutputs. by rewrite Hm. }
  unfold onEnd. destruct (inject_truthy (inject options)); [| done].
  rewrite Hout, Hep. unfold bind, ret. simpl.
  fold (cssOutputs result). rewrite Hnil.
  assert (completion_order [] = []) as ->.
  { apply Permutation_nil_r, completion_order_perm. }
  simpl. by rewrite andb_false_r.
Qed.

Lemma mapM_readCss_fails io ctx l w f :
  f ∈ l → files w !! path_resolve (buildRoot ctx) f = None →
  ∃ e, mapM (readCss io ctx) l w = (Throw e, w).
Proof.
  intros Hin Hmiss. induction l as [|g l IH]; [by apply elem_of_nil in Hin |].
  simpl. unfold bind at 1.
  pose proof (readCss_world io ctx g w) as Hw.
  destruct (readCss io ctx g w) as [[y | e] w1] eqn:Hg; simpl in Hw; subst w1;
    [| by exists e].
  apply elem_of_cons in Hin as [-> | Hin].
  - unfold readCss, bind, readFile in Hg. by rewrite Hmiss in Hg.
  - unfold bind. destruct (IH Hin) as (e & ->). by exists e.
Qed.

(** X8.  With injection enabled, [onEnd] reads every CSS output of the
    manifest before it injects anything: when one of them is missing on
    disk, [onEnd] fails, runs no nested build and leaves the world as it
    is, even if no entry output would have been augmented. *)
Theorem onEnd_missing_css_output (io : InitialOptions) (ctx : BuildContext)
    (options : Options) (result : BuildResult) (w : World) (f : string) :
  inject_truthy (inject options) = true →
  is_Some (io_outdir io) →
  is_Some (io_entryPoints io) →
  f ∈ cssOutputs result →
  files w !! path_resolve (buildRoot ctx) f = None →
  ∃ e, onEnd io ctx options result w = (Throw e, w).
Proof.
  intros Hinj [outdir Hout] [entryPoints Hep] Hf Hmiss.
  unfold onEnd. rewrite Hinj, Hout, Hep. unfold bind at 1. simpl.
  unfold bind at 1. simpl. unfold bind at 1.
  fold (cssOutputs result).
  destruct (mapM_readCss_fails io ctx (completion_order (cssOutputs result))
              w f) as (e & ->); [| done |].
  - by rewrite completion_order_perm.
  - by exists e.
Qed.

(** X9.  When the public path and a source map are configured (and the
    source map is not external), [buildJs] reads the entry output first:
    if it is missing, [buildJs] fails with the file-system error and has
    neither written the temporary entry nor run the nested build. *)
Theorem buildJs_missing_entry_output (io : InitialOptions)
    (absOutdir entryName entryPath jsCode : string) (w : World) :
  sourcemap_is_external (io_sourcemap io) = false →
  str_truthy (io_publicPath io) = true →
  sourcemap_truthy (io_sourcemap io) = true →
  files w !! entryPath = None →
  buildJs io absOutdir entryName entryPath jsCode w
  = (Throw (FsError "open" entryPath), w).
Proof.
  intros Hext Hpub Hmap Hmiss. unfold buildJs, bind, patchSourceMapUrl.
  rewrite Hext, Hpub, Hmap. simpl. unfold bind, readFile. by rewrite Hmiss.
Qed.

End entry_choice.

(** ** Entry points given as an object *)




(** ** The default scoping pattern *)



(** * Properties of the older implementation *)

Section legacy_properties.
Context `{NodePath, Legacy.Libraries}.

(** The state after [hash.update(cssFullPath)]. *)
Lemma legacy_build_run cssFullPath options s :
  let hashedState :=
    {| Legacy.files := Legacy.files s;
       Legacy.dirs := Legacy.dirs s;
       Legacy.hashed := Legacy.hashed s +:+ cssFullPath;
       Legacy.timers := Legacy.timers s |} in
  match Legacy.buildCssModulesJS cssFullPath options s with
  | (Ok r, s') =>
      ∃ css out json,
        Legacy.files s !! cssFullPath = Some css ∧
        Legacy.postcss_modules
          (default (Legacy.ConventionName "camelCaseOnly")
                   (Legacy.localsConvention options))
          (Legacy.generateScopedName options) css = Ok (out, json) ∧
        Legacy.cssContent r = out ∧
        s' = hashedState ∧
        (Legacy.bundle options && Legacy.v2 options = false →
         Js.occurs_in
           ("const digest = '" +:+
            Legacy.sha256 (Legacy.hashed s +:+ cssFullPath) +:+ "';")
           (Legacy.jsContent r))
  | (Throw e, s') =>
      s' = s ∨
      (s' = hashedState ∧
       ∃ f css, Legacy.inject options = Some (Legacy.InjectFn f) ∧
                Legacy.files s !! cssFullPath = Some css ∧
                f css (Legacy.sha256 (Legacy.hashed s +:+ cssFullPath))
                = Throw e)
  end.
Proof.
  intros hashedState.
  unfold Legacy.buildCssModulesJS, Legacy.lbind, Legacy.readFile,
    Legacy.llift, Legacy.updateAndDigest, Legacy.lret.
  destruct (Legacy.files s !! cssFullPath) as [css |]; [| by left].
  destruct (Legacy.postcss_modules _ _ css) as [[out json] | e] eqn:Hp;
    [| by left].
  fold hashedState.
  assert (∀ code,
            Legacy.bundle options && Legacy.v2 options = false →
            Js.occurs_in
              ("const digest = '" +:+
               Legacy.sha256 (Legacy.hashed s +:+ cssFullPath) +:+ "';")
              (if Legacy.bundle options && Legacy.v2 options
               then Js.join nl
                      ["";
                       "export default " +:+ Legacy.json_stringify json
                         +:+ ";    ";
                       "    "]
               else Js.join nl
                      ["";
                       "const digest = '" +:+
                         Legacy.sha256 (Legacy.hashed s +:+ cssFullPath)
                         +:+ "';";
                       "const css = " +:+ Legacy.backtick +:+ out +:+
                         Legacy.backtick +:+ ";";
                       code;
                       "export default " +:+ Legacy.json_stringify json
                         +:+ ";";
                       "export { css, digest };";
                       "  "])) as Hocc.
  { intros code ->. cbn [Js.join]. apply occurs_in_app_r, occurs_in_app_r.
    apply occurs_in_app_l, occurs_in_refl. }
  destruct (Legacy.inject options) as [[| f |] |] eqn:Hi; simpl.
  - exists css, out, json. repeat split; try done. apply Hocc.
  - destruct (f css _) as [code | e] eqn:Hf.
    + exists css, out, json. repeat split; try done. apply Hocc.
    + right. split; [done |]. by exists f, css.
  - exists css, out, json. repeat split; try done. apply Hocc.
  - exists css, out, json. repeat split; try done. apply Hocc.
Qed.


(** The compilation neither looks at the directories nor changes
    them. *)
Lemma legacy_build_frame cssFullPath options s d :
  Legacy.buildCssModulesJS cssFullPath options
    {| Legacy.files := Legacy.files s;
       Legacy.dirs := {[ d ]} ∪ Legacy.dirs s;
       Legacy.hashed := Legacy.hashed s;
       Legacy.timers := Legacy.timers s |}
  = ((Legacy.buildCssModulesJS cssFullPath options s).1,
     {| Legacy.files :=
          Legacy.files (Legacy.buildCssModulesJS cssFullPath options s).2;
        Legacy.dirs :=
          {[ d ]} ∪
          Legacy.dirs (Legacy.buildCssModulesJS cssFullPath options s).2;
        Legacy.hashed :=
          Legacy.hashed (Legacy.buildCssModulesJS cssFullPath options s).2;
        Legacy.timers :=
          Legacy.timers (Legacy.buildCssModulesJS cssFullPath options s).2 |}).
Proof.
  unfold Legacy.buildCssModulesJS, Legacy.lbind, Legacy.readFile,
    Legacy.llift, Legacy.updateAndDigest, Legacy.lret.
  simpl. destruct (Legacy.files s !! cssFullPath) as [css |]; [| done].
  destruct (Legacy.postcss_modules _ _ css) as [[out json] | e]; [| done].
  simpl. destruct (Legacy.inject options) as [[| f |] |]; simpl; try done.
  by destruct (f css _).
Qed.

(** X13.  When bundling, the module that the load callback returns is the
    one that the resolve callback wrote to the temporary directory, and
    it is watched under the path of the stylesheet.  Once the timer of
    the load callback has fired, the file [_tmp_<name>.css] beside the
    stylesheet does not exist, whether it was written ([v2]) or not; the
    temporary module is the only file that the two callbacks leave
    behind, and all other files are as they were. *)
Theorem legacy_bundle_round_trip (env : Legacy.Env)
    (args : Legacy.OnResolveArgs) (s s1 s2 : Legacy.State)
    (res : Legacy.OnResolveResult) (loaded : Legacy.OnLoadResult) :
  let tmpJs := Legacy.tmpFilePath_of env args +:+ ".js" in
  let tmpCss := Legacy.tmpCss_of args in
  Legacy.build_bundle env = true →
  Legacy.timers s = [] →
  tmpCss ≠ "" →
  tmpCss ≠ tmpJs →
  Legacy.onResolve env args s = (Ok res, s1) →
  Legacy.onLoad (Legacy.res_pluginData res) s1 = (Ok loaded, s2) →
  Legacy.res_path res = tmpJs ∧
  Legacy.res_namespace res = Legacy.pluginNamespace ∧
  Legacy.files s1 !! tmpJs = Some (Legacy.contents loaded) ∧
  Legacy.watchFiles loaded = [Legacy.sourceFullPath_of args] ∧
  Legacy.load_resolveDir loaded = Legacy.resolveDir args ∧
  Legacy.files (Legacy.afterTimers s2)
  = <[tmpJs := Legacy.contents loaded]> (delete tmpCss (Legacy.files s)).
Proof.
  intros tmpJs tmpCss Hbundle Htimers Hne Hdiff Hres Hload.
  unfold Legacy.onResolve in Hres. rewrite Hbundle in Hres.
  unfold Legacy.lbind at 1 in Hres. unfold Legacy.ensureDir at 1 in Hres.
  cbv beta iota zeta in Hres. unfold Legacy.lbind at 1 in Hres.
  match type of Hres with context [Legacy.buildCssModulesJS ?p ?o ?sd] =>
    pose proof (legacy_build_run p o sd) as R; cbv zeta in R;
    destruct (Legacy.buildCssModulesJS p o sd) as [[built | e] s0]; [| done]
  end.
  destruct R as (css & out & json & _ & _ & _ & -> & _).
  fold tmpCss tmpJs in Hres. simpl in Hres.
  destruct (Legacy.v2 (Legacy.options env));
    unfold Legacy.lbind, Legacy.writeFile, Legacy.lret in Hres;
    simpl in Hres; rewrite andb_false_r in Hres; simpl in Hres;
    injection Hres as <- <-;
    unfold Legacy.onLoad, Legacy.lbind, Legacy.scheduleUnlink, Legacy.lret
      in Hload; simpl in Hload; fold tmpCss in Hload;
    rewrite bool_decide_eq_false_2 in Hload by done; simpl in Hload;
    injection Hload as <- <-; simpl; rewrite Htimers; simpl;
    (split; [done |]); (split; [done |]);
    (split; [apply lookup_insert_eq |]); (split; [done |]);
    (split; [done |]).
  - rewrite delete_insert_ne by done. by rewrite delete_insert_eq.
  - by rewrite delete_insert_ne by done.
Qed.

(** X14.  Without bundling, the resolve callback gives the import back to
    the bundler under the path of the stylesheet, in the [file]
    namespace and with no data for a load callback.  It has written the
    generated module to the temporary directory and, when an output
    directory is configured, copied it to the target beside the outputs;
    it writes no other file, in particular no [_tmp_] stylesheet. *)
Theorem legacy_unbundled_resolve (env : Legacy.Env)
    (args : Legacy.OnResolveArgs) (s s1 : Legacy.State)
    (res : Legacy.OnResolveResult) :
  let tmpJs := Legacy.tmpFilePath_of env args +:+ ".js" in
  Legacy.build_bundle env = false →
  Legacy.onResolve env args s = (Ok res, s1) →
  res = {| Legacy.res_path := Legacy.sourceFullPath_of args;
           Legacy.res_namespace := "file";
           Legacy.res_pluginData := None |} ∧
  ∃ built s0,
    Legacy.buildCssModulesJS (Legacy.sourceFullPath_of args)
      (Legacy.with_bundle false (Legacy.options env)) s = (Ok built, s0) ∧
    Legacy.timers s1 = Legacy.timers s ∧
    Legacy.files s1
    = (if str_truthy (Legacy.outdir env)
       then <[Legacy.target_of (default "" (Legacy.outdir env)) args
                := Legacy.jsContent built]>
              (<[tmpJs := Legacy.jsContent built]> (Legacy.files s))
       else <[tmpJs := Legacy.jsContent built]> (Legacy.files s)).
Proof.
  intros tmpJs Hbundle Hres.
  unfold Legacy.onResolve in Hres. rewrite Hbundle in Hres.
  unfold Legacy.lbind at 1 in Hres. unfold Legacy.ensureDir at 1 in Hres.
  cbv beta iota zeta in Hres. unfold Legacy.lbind at 1 in Hres.
  rewrite legacy_build_frame in Hres.
  pose proof (legacy_build_run (Legacy.sourceFullPath_of args)
                (Legacy.with_bundle false (Legacy.options env)) s) as R.
  cbv zeta in R.
  destruct (Legacy.buildCssModulesJS _ _ s) as [[built | e] s0] eqn:Hb;
    [| done].
  destruct R as (css & out & json & _ & _ & _ & -> & _).
  fold tmpJs in Hres. simpl in Hres.
  unfold Legacy.lbind, Legacy.writeFile, Legacy.lret, Legacy.copyFile,
    Legacy.ensureDir in Hres.
  simpl in Hres.
  destruct (str_truthy (Legacy.outdir env)); simpl in Hres.
  - rewrite lookup_insert_eq in Hres. injection Hres as <- <-.
    split; [done |]. by eexists _, _.
  - injection Hres as <- <-. split; [done |]. by eexists _, _.
Qed.

(** X17.  On a file system whose writes and directory creations
    succeed, the resolve callback of the older implementation fails
    exactly when [buildCssModulesJS] fails, with the same error.  It has
    then asked for the temporary directory, but it has written no file
    and set no timer.  When the compilation succeeds, so does the
    resolution, and the generated module is in the temporary
    directory. *)
Theorem legacy_resolve_fails_with_compile (env : Legacy.Env)
    (args : Legacy.OnResolveArgs) (s : Legacy.State) :
  let tmpDir := Legacy.tmpDir_of env args in
  let tmpJs := Legacy.tmpFilePath_of env args +:+ ".js" in
  match Legacy.buildCssModulesJS (Legacy.sourceFullPath_of args)
          (Legacy.with_bundle (Legacy.build_bundle env) (Legacy.options env))
          (Legacy.ensureDir tmpDir s).2 with
  | (Throw e, s0) =>
      Legacy.onResolve env args s = (Throw e, s0) ∧
      Legacy.files s0 = Legacy.files s ∧
      Legacy.timers s0 = Legacy.timers s ∧
      Legacy.dirs s0 = {[ tmpDir ]} ∪ Legacy.dirs s
  | (Ok built, _) =>
      ∃ res s1,
        Legacy.onResolve env args s = (Ok res, s1) ∧
        Legacy.files s1 !! tmpJs
        = Some (if Legacy.build_bundle env && Legacy.v2 (Legacy.options env)
                then "import " +:+ dq +:+ Legacy.tmpCss_of args +:+ dq
                     +:+ ";" +:+ nl +:+ "          "
                     +:+ Legacy.jsContent built
                else Legacy.jsContent built)
  end.
Proof.
  intros tmpDir tmpJs.
  pose proof (legacy_build_run (Legacy.sourceFullPath_of args)
                (Legacy.with_bundle (Legacy.build_bundle env)
                   (Legacy.options env))
                (Legacy.ensureDir tmpDir s).2) as R.
  cbv zeta in R.
  assert (Legacy.onResolve env args s =
          Legacy.lbind
            (Legacy.buildCssModulesJS (Legacy.sourceFullPath_of args)
               (Legacy.with_bundle (Legacy.build_bundle env)
                  (Legacy.options env)))
            (λ built,
               Legacy.lbind
                 (if Legacy.build_bundle env && Legacy.v2 (Legacy.options env)
                  then Legacy.lbind
                         (Legacy.writeFile (Legacy.tmpCss_of args)
                            (Legacy.cssContent built))
                         (λ _, Legacy.lret
                                 ("import " +:+ dq +:+ Legacy.tmpCss_of args
                                  +:+ dq +:+ ";" +:+ nl +:+ "          "
                                  +:+ Legacy.jsContent built))
                  else Legacy.lret (Legacy.jsContent built))
                 (λ jsContent,
                    Legacy.lbind (Legacy.writeFile tmpJs jsContent)
                      (λ _,
                         Legacy.lbind
                           (if str_truthy (Legacy.outdir env) &&
                               negb (Legacy.build_bundle env)
                            then Legacy.lbind
                                   (Legacy.ensureDir
                                      (path_dirname
                                         (Legacy.target_of
                                            (default "" (Legacy.outdir env))
                                            args)))
                                   (λ _, Legacy.copyFile tmpJs
                                           (Legacy.target_of
                                              (default "" (Legacy.outdir env))
                                              args))
                            else Legacy.lret tt)
                           (λ _,
                              if negb (Legacy.build_bundle env)
                              then Legacy.lret
                                     {| Legacy.res_path :=
                                          Legacy.sourceFullPath_of args;
                                        Legacy.res_namespace := "file";
                                        Legacy.res_pluginData := None |}
                              else Legacy.lret
                                     {| Legacy.res_path := tmpJs;
                                        Legacy.res_namespace :=
                                          Legacy.pluginNamespace;
                                        Legacy.res_pluginData :=
                                          Some
                                            {| Legacy.content := jsContent;
                                               Legacy.resolveArgs :=
                                                 {| Legacy.ra_path :=
                                                      Legacy.path args;
                                                    Legacy.ra_tmpCss :=
                                                      Legacy.tmpCss_of args;
                                                    Legacy.ra_fullPath :=
                                                      Legacy.sourceFullPath_of
                                                        args;
                                                    Legacy.ra_importer :=
                                                      Legacy.importer args;
                                                    Legacy.ra_namespace :=
                                                      Legacy.namespace args;
                                                    Legacy.ra_resolveDir :=
                                                      Legacy.resolveDir args;
                                                    Legacy.ra_kind :=
                                                      Legacy.kind args |} |}
                                     |}))))
            (Legacy.ensureDir tmpDir s).2) as -> by reflexivity.
  destruct (Legacy.buildCssModulesJS _ _ (Legacy.ensureDir tmpDir s).2)
    as [[built | e] s0] eqn:Hbuild; unfold Legacy.lbind at 1; rewrite Hbuild.
  - destruct R as (css & out & json & _ & _ & _ & -> & _).
    destruct (Legacy.build_bundle env) eqn:Hb;
      destruct (Legacy.v2 (Legacy.options env)) eqn:Hv;
      unfold Legacy.lbind, Legacy.writeFile, Legacy.lret, Legacy.copyFile,
        Legacy.ensureDir;
      simpl; rewrite ?andb_false_r; simpl.
    + eexists _, _. split; [done |]. simpl. apply lookup_insert_eq.
    + eexists _, _. split; [done |]. simpl. apply lookup_insert_eq.
    + destruct (str_truthy (Legacy.outdir env)); simpl;
        rewrite ?lookup_insert_eq; eexists _, _; (split; [done |]); simpl;
        [| apply lookup_insert_eq].
      destruct (decide (Legacy.target_of (default "" (Legacy.outdir env)) args
                        = tmpJs)) as [-> | Hne].
      * apply lookup_insert_eq.
      * rewrite lookup_insert_ne by done. apply lookup_insert_eq.
    + destruct (str_truthy (Legacy.outdir env)); simpl;
        rewrite ?lookup_insert_eq; eexists _, _; (split; [done |]); simpl;
        [| apply lookup_insert_eq].
      destruct (decide (Legacy.target_of (default "" (Legacy.outdir env)) args
                        = tmpJs)) as [-> | Hne].
      * apply lookup_insert_eq.
      * rewrite lookup_insert_ne by done. apply lookup_insert_eq.
  - split; [done |]. by destruct R as [-> | [-> _]].
Qed.

End legacy_properties.

(** On the small build: a compilation whose [inject] callback throws
    fails and leaves the path of its stylesheet in the hash object. *)
Example legacy_throwing_callback_updates_hash :
  let run :=
    @Legacy.buildCssModulesJS LegacyDemo.libraries
      "/home/proj/src/btn.module.css" LegacyDemo.throwing LegacyDemo.state in
  run.1 = Throw (Error "inject failed") ∧
  Legacy.hashed LegacyDemo.state = "" ∧
  Legacy.hashed run.2 = "/home/proj/src/btn.module.css".
Proof. repeat split; vm_compute; reflexivity. Qed.
(** * More of the post-build step *)

(** ** The first occurrence of a pattern *)

Lemma prefix_split (pat s : string) :
  String.prefix pat s = true → s = pat +:+ Js.drop (String.length pat) s.
Proof.
  revert s. induction pat as [|a pat IH]; intros s Hp; [done |].
  destruct s as [|b s]; simpl in Hp; [done |].
  destruct (Ascii.ascii_dec a b) as [-> |]; [| done].
  rewrite append_cons. simpl. f_equal. by apply IH.
Qed.

Lemma prefix_app (pat post : string) : String.prefix pat (pat +:+ post) = true.
Proof.
  induction pat as [|a pat IH]; [by destruct post |].
  rewrite append_cons. simpl. by destruct (Ascii.ascii_dec a a).
Qed.

Lemma drop_app_length (pat post : string) :
  Js.drop (String.length pat) (pat +:+ post) = post.
Proof.
  induction pat as [|a pat IH]; [done |]. rewrite append_cons. simpl.
  apply IH.
Qed.

Lemma replace_first_absent (pat rep s : string) :
  ¬ Js.occurs_in pat s → Js.replace_first pat rep s = s.
Proof.
  induction s as [|c s IH]; intros Hno.
  - cbn [Js.replace_first]. destruct (String.prefix pat "") eqn:Hp; [| done].
    destruct Hno. exists "", (Js.drop (String.length pat) "").
    by apply prefix_split.
  - cbn [Js.replace_first].
    destruct (String.prefix pat (String c s)) eqn:Hp.
    + destruct Hno. exists "", (Js.drop (String.length pat) (String c s)).
      by apply prefix_split.
    + f_equal. apply IH. intros (pre & post & ->). apply Hno.
      by exists (String c pre), post.
Qed.

Lemma replace_first_present (pat rep s : string) :
  Js.occurs_in pat s →
  ∃ pre post,
    s = pre +:+ pat +:+ post ∧
    Js.replace_first pat rep s = pre +:+ rep +:+ post ∧
    ∀ pre' post', s = pre' +:+ pat +:+ post' →
                  (String.length pre ≤ String.length pre')%nat.
Proof.
  induction s as [|c s IH]; intros Hocc.
  - destruct Hocc as (pre & post & Heq).
    destruct pre; [| done]. destruct pat; [| done]. destruct post; [| done].
    exists "", "". split; [done |]. split; [by destruct rep |].
    intros pre' post' _. simpl. lia.
  - cbn [Js.replace_first].
    destruct (String.prefix pat (String c s)) eqn:Hp.
    + exists "", (Js.drop (String.length pat) (String c s)).
      split; [by apply prefix_split |]. split; [done |].
      intros pre' post' _. simpl. lia.
    + destruct IH as (pre & post & Heq & Hrep & Hfirst).
      { destruct Hocc as ([|a pre] & post & Heq).
        - rewrite append_nil_l in Heq. rewrite Heq, prefix_app in Hp. done.
        - rewrite append_cons in Heq. injection Heq as _ ->.
          by exists pre, post. }
      exists (String c pre), post. rewrite !append_cons.
      split; [by rewrite <- Heq |]. split; [by rewrite Hrep |].
      intros [|a pre'] post' Heq'.
      * rewrite append_nil_l in Heq'. rewrite Heq', prefix_app in Hp. done.
      * rewrite append_cons in Heq'. injection Heq' as _ Heq'.
        simpl. apply le_n_S. by apply (Hfirst pre' post').
Qed.

Lemma rev_app_append (s t acc : string) :
  String.rev_app (s +:+ t) acc = String.rev_app t (String.rev_app s acc).
Proof.
  revert acc. induction s as [|a s IH]; intros acc; [done |].
  rewrite append_cons. simpl. apply IH.
Qed.

Lemma rev_snoc (s : string) (c : ascii) :
  String.rev (s +:+ String c "") = String c (String.rev s).
Proof. unfold String.rev. by rewrite rev_app_append. Qed.

(** X15.  With a public path and a source map that is not external,
    [buildJs] rewrites the entry output before the nested build: the
    first [sourceMappingURL=] that is followed by the public path (with
    a slash at its end, added when the option has none) loses that public
    path, and nothing else of the text changes; an entry output without
    such a reference is written back as it was.  No other file is
    touched. *)
Theorem source_map_url_loses_public_path (io : InitialOptions)
    (r : string → string) (entryPath content : string) (w : World) :
  let publicPath := default "" (io_publicPath io) in
  let fixedPublicPath :=
    if ends_with_slash publicPath then publicPath else publicPath +:+ "/" in
  let url := "sourceMappingURL=" +:+ fixedPublicPath in
  sourcemap_is_external (io_sourcemap io) = false →
  str_truthy (io_publicPath io) = true →
  sourcemap_truthy (io_sourcemap io) = true →
  files w !! entryPath = Some content →
  ends_with_slash fixedPublicPath = true ∧
  ∃ patched,
    patchSourceMapUrl io r entryPath w
    = (Ok tt, with_files (<[entryPath := patched]> (files w)) w) ∧
    (¬ Js.occurs_in url content → patched = content) ∧
    (Js.occurs_in url content →
     ∃ pre post,
       content = pre +:+ url +:+ post ∧
       patched = pre +:+ "sourceMappingURL=" +:+ post ∧
       ∀ pre' post', content = pre' +:+ url +:+ post' →
                     (String.length pre ≤ String.length pre')%nat).
Proof.
  intros publicPath fixedPublicPath url Hext Hpub Hmap Hfile. split.
  - unfold fixedPublicPath.
    destruct (ends_with_slash publicPath) eqn:Hs; [done |].
    unfold ends_with_slash. rewrite rev_snoc. by apply bool_decide_eq_true.
  - exists (Js.replace_first url "sourceMappingURL=" content).
    split; [| split].
    + unfold patchSourceMapUrl. rewrite Hext, Hpub, Hmap. simpl.
      unfold bind, readFile. by rewrite Hfile.
    + apply replace_first_absent.
    + apply replace_first_present.
Qed.

(** ** What [onEnd] leaves alone *)

Section onEnd_frame.
Context `{NodePath, Externals, Utils, Scheduler}.

Lemma patchSourceMapUrl_cache io r entryPath w :
  cache (patchSourceMapUrl io r entryPath w).2 = cache w.
Proof.
  unfold patchSourceMapUrl.
  destruct (sourcemap_is_external (io_sourcemap io)); [done |].
  destruct (str_truthy (io_publicPath io) && sourcemap_truthy (io_sourcemap io));
    [| done].
  unfold bind, readFile, writeFile. by destruct (files w !! entryPath).
Qed.

Lemma buildJs_cache io absOutdir entryName entryPath jsCode w :
  cache (buildJs io absOutdir entryName entryPath jsCode w).2 = cache w.
Proof.
  unfold buildJs. unfold bind at 1.
  match goal with |- context [patchSourceMapUrl io ?r entryPath w] =>
    pose proof (patchSourceMapUrl_cache io r entryPath w) as Hc;
    destruct (patchSourceMapUrl io r entryPath w) as [[[] | e] w1]
  end; simpl in Hc; [| done].
  unfold bind, writeFile, tell, nestedBuild, unlink. simpl.
  destruct (esbuild_build _ _) as [[[] | e] f']; simpl; [| done].
  by destruct (f' !! _).
Qed.

(** X16.  The post-build step works on the outputs of the build alone:
    whatever [onEnd] does and however it ends, the build cache is as it
    was, no stylesheet has been compiled and the cache has not been
    consulted; the only event it can add is one nested build. *)
Theorem onEnd_keeps_cache (io : InitialOptions) (ctx : BuildContext)
    (options : Options) (result : BuildResult) (w : World) :
  cache (onEnd io ctx options result w).2 = cache w ∧
  cache_events (onEnd io ctx options result w).2 = cache_events w ∧
  (∀ p, compile_count p (onEnd io ctx options result w).2
        = compile_count p w) ∧
  (trace (onEnd io ctx options result w).2 = trace w ∨
   ∃ entryName entryPath code,
     trace (onEnd io ctx options result w).2
     = trace w ++ [EvNestedBuild entryName entryPath code]).
Proof.
  assert (∀ r w', onEnd io ctx options result w = (r, w') →
                  cache w' = cache w ∧
                  (trace w' = trace w ∨
                   ∃ entryName entryPath code,
                     trace w' = trace w ++ [EvNestedBuild entryName entryPath code]))
    as Hrun.
  { intros r w' Hrun. unfold onEnd in Hrun.
    destruct (inject_truthy (inject options));
      [| by injection Hrun as <- <-; split; [| left]].
    unfold bind at 1 in Hrun.
    destruct (io_outdir io) as [outdir |];
      [| by injection Hrun as <- <-; split; [| left]].
    unfold ret at 1 in Hrun. unfold bind at 1 in Hrun.
    destruct (io_entryPoints io) as [entryPoints |];
      [| by injection Hrun as <- <-; split; [| left]].
    unfold ret at 1 in Hrun. unfold bind at 1 in Hrun.
    match type of Hrun with context [mapM (readCss io ctx) ?l w] =>
      pose proof (mapM_readCss io ctx l w) as [Hw _];
      destruct (mapM (readCss io ctx) l w) as [[cssContents | e] w1]
    end; simpl in Hw; subst w1;
      [| by injection Hrun as <- <-; split; [| left]].
    match type of Hrun with context [if ?c then _ else _] => destruct c end;
      [| by injection Hrun as <- <-; split; [| left]].
    split.
    - match type of Hrun with buildJs io ?a ?n ?p ?c w = _ =>
        pose proof (buildJs_cache io a n p c w) as Hc
      end.
      by rewrite Hrun in Hc.
    - destruct (buildJs_trace io _ _ _ _ w r w' Hrun) as [[Ht _] | [Ht _]];
        [by left | right; eauto]. }
  destruct (Hrun _ _ (surjective_pairing _)) as [Hcache Htrace].
  split; [done |].
  assert (cache_events (onEnd io ctx options result w).2 = cache_events w ∧
          ∀ p, compile_count p (onEnd io ctx options result w).2
               = compile_count p w) as [He Hn].
  { unfold cache_events, compile_count.
    destruct Htrace as [-> | (n & q & c & ->)]; [done |].
    rewrite filter_app. split.
    - rewrite filter_cons_False, filter_nil by done. by rewrite app_nil_r.
    - intros p. rewrite filter_app, length_app.
      rewrite filter_cons_False, filter_nil by done. simpl. lia. }
  done.
Qed.

End onEnd_frame.

(** * The two export surfaces (C5) *)

(** ** Bindings under one key *)






Section export_surface_properties.
Context `{NodePath, Externals, Utils}.


End export_surface_properties.

(** * The injection step (C2) *)

Section injection_step.
Context `{NodePath, Externals, Utils, Scheduler}.

(** A run of [buildJs] that returns normally: the source-map reference is
    patched, the temporary entry is written, the nested build runs on it
    and the temporary entry is removed. *)
Lemma buildJs_Ok io absOutdir entryName entryPath jsCode w w' :
  let rel := λ p, Js.replace_char path_sep "/"%char (path_relative absOutdir p) in
  let tmp := tmpJsPath_of absOutdir in
  let code := tmpJsCode_of absOutdir entryPath jsCode in
  buildJs io absOutdir entryName entryPath jsCode w = (Ok tt, w') →
  ∃ w1 f',
    patchSourceMapUrl io rel entryPath w = (Ok tt, w1) ∧
    esbuild_build (nestedBuildOptions io absOutdir entryName tmp)
                  (<[tmp := code]> (files w1)) = (Ok tt, f') ∧
    files w' = delete tmp f' ∧
    cache w' = cache w ∧
    trace w' = trace w ++ [EvNestedBuild entryName entryPath code].
Proof.
  intros rel tmp code. unfold buildJs. fold rel tmp.
  unfold bind at 1.
  pose proof (patchSourceMapUrl_trace io rel entryPath w) as Ht.
  pose proof (patchSourceMapUrl_cache io rel entryPath w) as Hc.
  destruct (patchSourceMapUrl io rel entryPath w) as [[[] | e] w1];
    simpl in Ht, Hc; [| done].
  unfold bind, writeFile, tell, nestedBuild, unlink. simpl.
  change (("import " +:+ dq +:+ "./" +:+ rel entryPath +:+ dq +:+ ";" +:+ nl +:+
           "export * from " +:+ dq +:+ "./" +:+ rel entryPath +:+ dq +:+ ";")
          +:+ nl +:+ jsCode) with code.
  destruct (esbuild_build _ _) as [[[] | e] f'] eqn:Hb; simpl; [| done].
  destruct (f' !! tmp); simpl; [| done].
  intros [= <-]. exists w1, f'. simpl. by rewrite Ht, Hc.
Qed.

Lemma injections_app p w w' evs :
  trace w' = trace w ++ evs →
  injections p w'
  = injections p w + length (filter (λ ev, is_injection_of p ev = true) evs).
Proof.
  intros Ht. unfold injections. by rewrite Ht, filter_app, length_app.
Qed.

(** C2, as the code has it.  With injection enabled and the output
    directory and the entry points configured, a run of [onEnd] starts
    at most one nested build, however it ends.  When it returns normally
    and the manifest has no CSS output or no candidate (a JS output
    whose entry point is one of the requested entry points), it has
    changed nothing.  When it returns normally and the manifest has a
    CSS output, it has run one nested build for the first candidate in
    manifest order: the entry of that build is the temporary file, which
    imports the candidate and carries the inject code for the CSS of all
    CSS outputs, joined; it is named by the base name of the candidate
    and the build writes to the output directory.  The files are then
    those that this nested build left, without the temporary entry; the
    cache is as it was, and no nested build was run for any other
    output. *)
Theorem only_first_entry_injected (io : InitialOptions) (ctx : BuildContext)
    (options : Options) (result : BuildResult) (w w' : World)
    (r : Outcome unit) (outdir : string) (entryPoints : EntryPoints) :
  let manifest := default [] (metafile result) in
  let absOutdir :=
    if path_isAbsolute outdir then outdir
    else path_resolve (buildRoot ctx) outdir in
  let tmp := tmpJsPath_of absOutdir in
  let rel := λ p, Js.replace_char path_sep "/"%char (path_relative absOutdir p) in
  let candidate := entryCandidate ctx (entries_of ctx entryPoints) manifest in
  let container :=
    match inject options with InjectSelector s => s | _ => "head" end in
  inject_truthy (inject options) = true →
  io_outdir io = Some outdir →
  io_entryPoints io = Some entryPoints →
  onEnd io ctx options result w = (r, w') →
  (trace w' = trace w ∨
   ∃ entryName p code,
     trace w' = trace w ++ [EvNestedBuild entryName p code]) ∧
  (∀ p, (injections p w' ≤ injections p w + 1)%nat) ∧
  (r = Ok tt →
   cssOutputs result = [] ∨
     (∀ f, f ∈ obj_keys manifest → candidate f = false) →
   w' = w) ∧
  (r = Ok tt →
   cssOutputs result ≠ [] →
   ∀ before f after,
     obj_keys manifest = before ++ f :: after →
     (∀ g, g ∈ before → candidate g = false) →
     candidate f = true →
     let p := path_resolve (buildRoot ctx) f in
     let entryName := path_basename_ext p (path_extname p) in
     p ≠ "" →
     ∃ cssContents w1 f',
       mapM (readCss io ctx) (completion_order (cssOutputs result)) w
         = (Ok cssContents, w) ∧
       length cssContents = length (cssOutputs result) ∧
       let code :=
         tmpJsCode_of absOutdir p
           (buildInjectCode container (Js.join nl cssContents) (buildId ctx)
                            options) in
       patchSourceMapUrl io rel p w = (Ok tt, w1) ∧
       esbuild_build (nestedBuildOptions io absOutdir entryName tmp)
                     (<[tmp := code]> (files w1)) = (Ok tt, f') ∧
       nb_entryPoints (nestedBuildOptions io absOutdir entryName tmp)
         = [(entryName, tmp)] ∧
       nb_outdir (nestedBuildOptions io absOutdir entryName tmp) = absOutdir ∧
       files w' = delete tmp f' ∧
       cache w' = cache w ∧
       trace w' = trace w ++ [EvNestedBuild entryName p code] ∧
       injections p w' = injections p w + 1 ∧
       ∀ q, q ≠ p → injections q w' = injections q w).
Proof.
  intros manifest absOutdir tmp rel candidate container Hinj Hout Hep Hrun.
  assert (∀ evs, trace w' = trace w ++ evs → (length evs ≤ 1)%nat →
                 ∀ p, (injections p w' ≤ injections p w + 1)%nat) as Hcount.
  { intros evs Ht Hlen p. rewrite (injections_app p w w' evs Ht).
    pose proof (length_filter (λ ev, is_injection_of p ev = true) evs). lia. }
  unfold onEnd in Hrun. rewrite Hinj, Hout, Hep in Hrun.
  unfold bind at 1 in Hrun. unfold ret at 1 in Hrun.
  unfold bind at 1 in Hrun. unfold ret at 1 in Hrun.
  unfold bind at 1 in Hrun.
  fold manifest absOutdir in Hrun.
  change (filter (λ f : string, is_css_ext f) (obj_keys manifest))
    with (cssOutputs result) in Hrun.
  pose proof (mapM_readCss io ctx (completion_order (cssOutputs result)) w)
    as [Hw Hlen].
  destruct (mapM (readCss io ctx) (completion_order (cssOutputs result)) w)
    as [[cssContents | e] w0] eqn:Hread; simpl in Hw, Hlen; subst w0.
  2:{ injection Hrun as <- <-. split; [by left |].
      split; [apply (Hcount []); [by rewrite app_nil_r | simpl; lia] |].
      split; [done |]. done. }
  specialize (Hlen cssContents eq_refl).
  rewrite (Permutation_length (completion_order_perm (cssOutputs result)))
    in Hlen.
  assert (cssContents = [] ↔ cssOutputs result = []) as Hempty.
  { by rewrite <- !length_zero_iff_nil, Hlen. }
  set (chosen := foldl (pickEntry ctx (entries_of ctx entryPoints) manifest)
                       None (obj_keys manifest)) in Hrun.
  assert (∀ before f after,
            obj_keys manifest = before ++ f :: after →
            (∀ g, g ∈ before → candidate g = false) →
            candidate f = true →
            path_resolve (buildRoot ctx) f ≠ "" →
            chosen = Some (path_resolve (buildRoot ctx) f)) as Hfirst.
  { intros before f after Heq Hbefore Hc Hne. unfold chosen. rewrite Heq.
    rewrite foldl_app.
    rewrite (pickEntry_fold_none ctx _ _ before Hbefore). simpl.
    rewrite pickEntry_candidate. fold candidate. rewrite Hc. simpl.
    apply pickEntry_fold_truthy. simpl. by rewrite bool_decide_eq_false_2. }
  assert ((∀ f, f ∈ obj_keys manifest → candidate f = false) → chosen = None)
    as Hnone.
  { intros Hno. unfold chosen. by apply pickEntry_fold_none. }
  destruct (str_truthy chosen && negb (bool_decide (cssContents = [])))
    eqn:Hgo.
  - apply andb_true_iff in Hgo as [Hchosen Hcss].
    apply negb_true_iff, bool_decide_eq_false in Hcss.
    destruct chosen as [p |] eqn:Hp; [| done]. simpl in Hrun.
    assert (r = Ok tt →
            ∃ w1 f',
              patchSourceMapUrl io rel p w = (Ok tt, w1) ∧
              esbuild_build
                (nestedBuildOptions io absOutdir
                   (path_basename_ext p (path_extname p)) tmp)
                (<[tmp := tmpJsCode_of absOutdir p
                            (buildInjectCode container (Js.join nl cssContents)
                               (buildId ctx) options)]> (files w1))
              = (Ok tt, f') ∧
              files w' = delete tmp f' ∧
              cache w' = cache w ∧
              trace w' = trace w ++
                [EvNestedBuild (path_basename_ext p (path_extname p)) p
                   (tmpJsCode_of absOutdir p
                      (buildInjectCode container (Js.join nl cssContents)
                         (buildId ctx) options))]) as Hok.
    { intros ->. by apply buildJs_Ok. }
    destruct (buildJs_trace _ _ _ _ _ _ _ _ Hrun) as [[Ht Hne] | [Ht _]].
    + split; [by left |]. split.
      { apply (Hcount []); [by rewrite app_nil_r | simpl; lia]. }
      split; [by intros -> |]. by intros ->.
    + split; [right; eauto |]. split.
      { apply (Hcount _ Ht). simpl. lia. }
      split.
      { intros _ [Hnil | Hno].
        - by destruct Hcss; apply Hempty.
        - by specialize (Hnone Hno). }
      intros Hr _ before f after Heq Hbefore Hc q entryName Hne.
      pose proof (Hfirst before f after Heq Hbefore Hc Hne) as Hq.
      injection Hq as ->. fold q.
      destruct (Hok Hr) as (w1 & f' & Hpatch & Hbuild & Hfiles & Hcache & Htr).
      exists cssContents, w1, f'.
      split; [done |]. split; [done |]. cbv zeta.
      split; [exact Hpatch |]. split; [exact Hbuild |].
      split; [done |]. split; [done |]. split; [exact Hfiles |].
      split; [exact Hcache |]. split; [exact Htr |]. split.
      * rewrite (injections_app q w w' _ Htr).
        rewrite filter_cons_True, filter_nil; [done |].
        simpl. by apply bool_decide_eq_true_2.
      * intros q' Hq'. rewrite (injections_app q' w w' _ Htr).
        rewrite filter_cons_False, filter_nil; [simpl; lia |].
        simpl. rewrite bool_decide_eq_false_2; [done |].
        intros Heq'. by apply Hq'.
  - simpl in Hrun. injection Hrun as <- <-.
    split; [by left |].
    split; [apply (Hcount []); [by rewrite app_nil_r | simpl; lia] |].
    split; [done |].
    intros _ Hcss before f after Heq Hbefore Hc q entryName Hne.
    pose proof (Hfirst before f after Heq Hbefore Hc Hne) as Hq.
    rewrite Hq in Hgo. simpl in Hgo.
    rewrite bool_decide_eq_false_2 in Hgo by done. simpl in Hgo.
    apply negb_false_iff, bool_decide_eq_true in Hgo.
    by destruct Hcss; apply Hempty.
Qed.

End injection_step.

(** Where the bundle lands is the bundler's doing.  With a bundler that,
    like esbuild, writes the bundle of the entry point named [n] to
    [outdir/n.js], an entry output in a subdirectory of the output
    directory is left as it was: the nested build for [out/x/a.js] writes
    [out/a.js]. *)
Example nested_bundle_lands_in_outdir :
  let run :=
    @onEnd Demo.posix (Demo.externals Demo.build_ok) Demo.utils Demo.inOrder
      DemoMore.nestedIo Demo.ctx (Demo.options (InjectBool true))
      DemoMore.nestedResult DemoMore.nestedWorld in
  run.1 = Ok tt ∧
  injections "/proj/out/x/a.js" run.2 = 1 ∧
  files run.2 !! "/proj/out/x/a.js" = Some "XA();" ∧
  files DemoMore.nestedWorld !! "/proj/out/a.js" = None ∧
  is_Some (files run.2 !! "/proj/out/a.js").
Proof.
  repeat split; try (vm_compute; reflexivity). vm_compute. by eexists.
Qed.
(** * The properties on the small builds *)



Lemma onEnd_without_css_outputs_witness :
  @onEnd Demo.posix (Demo.externals Demo.build_ok) Demo.utils Demo.inOrder
    (Demo.io None) Demo.ctx (Demo.options (InjectBool true))
    DemoMore.noManifest Demo.world = (Ok tt, Demo.world).
Proof.
  apply (@onEnd_without_css_outputs Demo.posix (Demo.externals Demo.build_ok)
           Demo.utils Demo.inOrder (Demo.io None) Demo.ctx
           (Demo.options (InjectBool true)) DemoMore.noManifest Demo.world).
  - eexists. reflexivity.
  - eexists. reflexivity.
  - right. reflexivity.
Defined.

Lemma onEnd_missing_css_output_witness :
  ∃ e, @onEnd Demo.posix (Demo.externals Demo.build_ok) Demo.utils
         Demo.inOrder (Demo.io None) Demo.ctx (Demo.options (InjectBool true))
         Demo.result DemoMore.emptyWorld = (Throw e, DemoMore.emptyWorld).
Proof.
  apply (@onEnd_missing_css_output Demo.posix (Demo.externals Demo.build_ok)
           Demo.utils Demo.inOrder (Demo.io None) Demo.ctx
           (Demo.options (InjectBool true)) Demo.result DemoMore.emptyWorld
           "out/a.css").
  - reflexivity.
  - eexists. reflexivity.
  - eexists. reflexivity.
  - vm_compute. by left.
  - reflexivity.
Defined.

Lemma buildJs_missing_entry_output_witness :
  @buildJs Demo.posix (Demo.externals Demo.build_ok) DemoMore.ioPublicPath
    "/proj/out" "a" "/proj/out/a.js" ".a_h{}" DemoMore.emptyWorld
  = (Throw (FsError "open" "/proj/out/a.js"), DemoMore.emptyWorld).
Proof.
  apply (@buildJs_missing_entry_output Demo.posix
           (Demo.externals Demo.build_ok) DemoMore.ioPublicPath
           "/proj/out" "a" "/proj/out/a.js" ".a_h{}" DemoMore.emptyWorld);
    reflexivity.
Defined.




Lemma legacy_bundle_round_trip_witness :
  ∃ res s1 loaded s2,
    LegacyDemo.resolve true true None LegacyDemo.state = (Ok res, s1) ∧
    @Legacy.onLoad (Legacy.res_pluginData res) s1 = (Ok loaded, s2) ∧
    Legacy.files s1 !! "/home/proj/src/_tmp_btn.css" = Some "._a_1{}" ∧
    Legacy.files (Legacy.afterTimers s2) !! "/home/proj/src/_tmp_btn.css"
    = None ∧
    Legacy.files (Legacy.afterTimers s2)
      !! "/tmp/t1/proj/src/btn.module.css.js"
    = Some (Legacy.contents loaded).
Proof.
  destruct (LegacyDemo.resolve true true None LegacyDemo.state)
    as [[res | e] s1] eqn:Hres; [| by vm_compute in Hres].
  pose proof (f_equal fst Hres) as Hr. pose proof (f_equal snd Hres) as Hs.
  simpl in Hr, Hs. vm_compute in Hr. injection Hr as Hr. subst res s1.
  match type of Hres with _ = (Ok ?r, ?s) =>
    destruct (@Legacy.onLoad (Legacy.res_pluginData r) s)
      as [[loaded | e] s2] eqn:Hload; [| by vm_compute in Hload];
    destruct (@legacy_bundle_round_trip Demo.posix LegacyDemo.libraries
                (LegacyDemo.env true true None) LegacyDemo.args
                LegacyDemo.state s s2 r loaded)
      as (_ & _ & _ & _ & _ & Hfiles);
    [ reflexivity | reflexivity
    | intros Heq; vm_compute in Heq; discriminate Heq
    | intros Heq; vm_compute in Heq; discriminate Heq
    | exact Hres | exact Hload | ];
    exists r, s, loaded, s2
  end.
  split; [exact Hres |]. split; [exact Hload |].
  split; [by vm_compute |]. rewrite Hfiles. split.
  - rewrite lookup_insert_ne by (intros Heq; vm_compute in Heq; discriminate Heq).
    apply lookup_delete_eq.
  - apply lookup_insert_eq.
Defined.

Lemma legacy_unbundled_resolve_witness :
  ∃ res s1,
    LegacyDemo.resolve false false (Some "out") LegacyDemo.state
    = (Ok res, s1) ∧
    res = {| Legacy.res_path := "/home/proj/src/btn.module.css";
             Legacy.res_namespace := "file";
             Legacy.res_pluginData := None |} ∧
    Legacy.files s1 !! "/home/proj/src/out/btn.module.css.js"
    = Legacy.files s1 !! "/tmp/t1/proj/src/btn.module.css.js" ∧
    Legacy.files s1 !! "/home/proj/src/_tmp_btn.css" = None.
Proof.
  destruct (LegacyDemo.resolve false false (Some "out") LegacyDemo.state)
    as [[res | e] s1] eqn:Hres; [| by vm_compute in Hres].
  destruct (@legacy_unbundled_resolve Demo.posix LegacyDemo.libraries
              (LegacyDemo.env false false (Some "out")) LegacyDemo.args
              LegacyDemo.state s1 res eq_refl Hres)
    as (Hr & built & s0 & Hb & _ & Hfiles).
  exists res, s1. split; [done |]. split; [exact Hr |].
  rewrite Hfiles. by vm_compute.
Defined.

Lemma source_map_url_loses_public_path_witness :
  ∃ patched pre post,
    patchSourceMapUrl DemoMore.ioPublicPath (λ p, p) "/proj/out/a.js"
      DemoMore.mappedWorld
    = (Ok tt, with_files (<["/proj/out/a.js" := patched]>
                            (files DemoMore.mappedWorld))
                DemoMore.mappedWorld) ∧
    DemoMore.mappedEntry
    = pre +:+ "sourceMappingURL=https://cdn.example/" +:+ post ∧
    patched = pre +:+ "sourceMappingURL=" +:+ post.
Proof.
  destruct (source_map_url_loses_public_path DemoMore.ioPublicPath (λ p, p)
              "/proj/out/a.js" DemoMore.mappedEntry DemoMore.mappedWorld)
    as (_ & patched & Hrun & _ & Hocc); [reflexivity .. |].
  destruct Hocc as (pre & post & Hsplit & Hpatched & _).
  { exists ("A();" +:+ nl +:+ "//# "), "a.js.map". reflexivity. }
  exists patched, pre, post. split; [exact Hrun |]. split; [exact Hsplit |].
  exact Hpatched.
Defined.

Lemma only_first_entry_injected_witness :
  ∃ code,
    trace (Demo.runOnEnd Demo.build_ok Demo.world).2
      = [EvNestedBuild "a" "/proj/out/a.js" code] ∧
    injections "/proj/out/a.js" (Demo.runOnEnd Demo.build_ok Demo.world).2 = 1 ∧
    injections "/proj/out/b.js" (Demo.runOnEnd Demo.build_ok Demo.world).2 = 0 ∧
    files (Demo.runOnEnd Demo.build_ok Demo.world).2
      !! "/proj/out/.build.inject.js" = None.
Proof.
  destruct (Demo.runOnEnd Demo.build_ok Demo.world) as [[[] | e] w'] eqn:Hrun;
    [| by vm_compute in Hrun].
  destruct (@only_first_entry_injected Demo.posix
              (Demo.externals Demo.build_ok) Demo.utils Demo.inOrder
              (Demo.io None) Demo.ctx (Demo.options (InjectBool true))
              Demo.result Demo.world w' (Ok tt) "out" Demo.entryPoints
              eq_refl eq_refl eq_refl Hrun) as (_ & _ & _ & Hfirst).
  destruct (Hfirst eq_refl) with (before := @nil string) (f := "out/a.js")
      (after := ["out/a.css"; "out/b.js"; "out/b.css"])
    as (cssContents & w1 & f' & _ & _ & _ & _ & _ & _ & Hfiles & _ & Htrace
        & Ha & Hb).
  - intros Hnil. vm_compute in Hnil. discriminate Hnil.
  - reflexivity.
  - intros g Hg. by apply elem_of_nil in Hg.
  - reflexivity.
  - intros Heq. vm_compute in Heq. discriminate Heq.
  - eexists. split; [exact Htrace |]. split; [exact Ha |]. split.
    + apply (Hb "/proj/out/b.js"). intros Heq. vm_compute in Heq.
      discriminate Heq.
    + simpl. rewrite Hfiles. apply lookup_delete_eq.
Defined.

